(** * The Text component of the blocks SDK (packages/sdk/src/ui/text.js)

    A shallow embedding of [useTextSize] and of the render function [Text],
    with the JavaScript operations they rely on: property reads, object
    spread and rest, destructuring defaults, React's default props and the
    JSX element the render function returns.

    Collaborators that live outside text.js (the theme, the styling hook,
    emotion's [cx], the responsive expansion routine) are Section variables:
    a theorem stated over them holds for whatever they are.  Where a
    statement is about what [cx] or the expansion routine returns, it is
    made on a definition modelled from the spec. *)

From stdpp Require Import gmap strings list fin_maps pretty.

Set Warnings "-register-all".

(** * JavaScript values *)

(** Objects are finite maps from property names to values: their own
    enumerable properties.  Numbers are the integer literals; [VNative] is a
    function or runtime object the model does not look into (a caller's
    callback, a member of Object.prototype). *)
Inductive value : Type :=
  | VUndefined
  | VNull
  | VBool (b : bool)
  | VNum (z : Z)
  | VStr (s : string)
  | VObj (o : gmap string value)
  | VNative (name : string).

(** What a call can end in: a value, a thrown error, or a step of the
    JavaScript runtime this embedding leaves out ([Unmodelled]: string
    conversion of numbers and objects, property reads on primitives and on
    native objects). *)
Inductive error : Type :=
  | TypeError
  | InvariantViolation (message : string).

Inductive outcome (A : Type) : Type :=
  | Normal (a : A)
  | Throw (e : error)
  | Unmodelled.
Arguments Normal {A} a.
Arguments Throw {A} e.
Arguments Unmodelled {A}.

Definition obind {A B : Type} (m : outcome A) (k : A → outcome B) : outcome B :=
  match m with
  | Normal a => k a
  | Throw e => Throw e
  | Unmodelled => Unmodelled
  end.

Notation "'do' x <- m ; k" := (obind m (λ x, k))
  (at level 10, x name, m at level 100, k at level 200,
   format "'[v' 'do'  x  <-  m ; '/' k ']'").
Notation "'do_' m ; k" := (obind m (λ _, k))
  (at level 10, m at level 100, k at level 200,
   format "'[v' 'do_'  m ; '/' k ']'").

Definition is_normal {A : Type} (m : outcome A) : Prop :=
  ∃ a, m = Normal a.

Module JS.

(** [v !== undefined] *)
Definition is_defined (v : value) : bool :=
  match v with VUndefined => false | _ => true end.

(** [typeof v === 'string'] *)
Definition is_string (v : value) : bool :=
  match v with VStr _ => true | _ => false end.

(** The members every plain object inherits from Object.prototype
    (ECMAScript, with the Annex B accessors).  None is enumerable. *)
Definition object_prototype_names : list string :=
  [ "constructor"; "hasOwnProperty"; "isPrototypeOf"; "propertyIsEnumerable";
    "toLocaleString"; "toString"; "valueOf"; "__proto__";
    "__defineGetter__"; "__defineSetter__"; "__lookupGetter__";
    "__lookupSetter__" ].

Definition inherited (k : string) : value :=
  if bool_decide (k ∈ object_prototype_names)
  then VNative ("Object.prototype." +:+ k)
  else VUndefined.

(** [o[k]] / [o.k] on an object whose prototype is Object.prototype: the
    own property when there is one, the inherited member otherwise,
    [undefined] when there is neither. *)
Definition get (o : gmap string value) (k : string) : value :=
  match o !! k with
  | Some v => v
  | None => inherited k
  end.

(** ToPropertyKey, on the values whose conversion is fixed text. *)
Definition to_property_key (v : value) : outcome string :=
  match v with
  | VStr s => Normal s
  | VUndefined => Normal "undefined"
  | VNull => Normal "null"
  | VBool true => Normal "true"
  | VBool false => Normal "false"
  | VNum _ | VObj _ | VNative _ => Unmodelled
  end.

(** [base[key]]: reading a property of [undefined] or [null] throws a
    TypeError before the key is converted. *)
Definition get_prop (base key : value) : outcome value :=
  match base with
  | VUndefined | VNull => Throw TypeError
  | VObj o => do k <- to_property_key key; Normal (get o k)
  | VBool _ | VNum _ | VStr _ | VNative _ => Unmodelled
  end.

(** The indexed characters of a string, as object spread sees them. *)
Definition string_entries (s : string) : gmap string value :=
  list_to_map
    (imap (λ i c, (pretty i, VStr (String c EmptyString)))
          (String.list_ascii_of_string s)).

(** The own enumerable properties [{...v}] copies. *)
Definition own_enumerable (v : value) : gmap string value :=
  match v with
  | VObj o => o
  | VStr s => string_entries s
  | VUndefined | VNull | VBool _ | VNum _ | VNative _ => ∅
  end.

(** [{...target, ...v}]: the properties of [v] are written over those
    [target] already has. *)
Definition spread (target : gmap string value) (v : value)
  : gmap string value :=
  own_enumerable v ∪ target.

(** [{k1: v1, ..., kn: vn}] written onto [target], left to right. *)
Definition assign (target : gmap string value)
           (entries : list (string * value)) : gmap string value :=
  foldl (λ acc kv, <[kv.1 := kv.2]> acc) target entries.

(** [const {k1: _, ..., kn: _, ...rest} = o]: the own enumerable
    properties of [o] that are not among the named keys. *)
Definition rest (o : gmap string value) (named : list string)
  : gmap string value :=
  foldr delete o named.

(** A destructuring default, [{k = d} = o]: [d] when the property reads
    as [undefined]. *)
Definition or_default (v d : value) : value :=
  match v with VUndefined => d | _ => v end.

End JS.

(** * text.js *)

(** [export const TextVariants = Object.freeze({...})] *)
Module TextVariants.
Definition DEFAULT : string := "default".
Definition PARAGRAPH : string := "paragraph".
(** [values(TextVariants)] *)
Definition values : list string := [DEFAULT; PARAGRAPH].
End TextVariants.

(** [export const TextSizes = Object.freeze({...})] *)
Module TextSizes.
Definition XSMALL : string := "xsmall".
Definition SMALL : string := "small".
Definition DEFAULT : string := "default".
Definition LARGE : string := "large".
(** [values(TextSizes)] *)
Definition values : list string := [XSMALL; SMALL; DEFAULT; LARGE].
End TextSizes.

(** The eight accessibility props of [AriaProps], in the order the render
    function names them. *)
Definition aria_names : list string :=
  [ "aria-label"; "aria-labelledby"; "aria-describedby"; "aria-controls";
    "aria-expanded"; "aria-haspopup"; "aria-hidden"; "aria-live" ].

(** The props [Text] destructures by name (lines 123-139); every other prop
    goes to [...styleProps]. *)
Definition named_props : list string :=
  [ "as"; "size"; "variant"; "children"; "id"; "role"; "dataAttributes";
    "className"; "style" ] ++ aria_names.

(** Modelled from the spec: [invariant] of error_utils, which is not in the
    sources at hand.  The spec calls it a prop-existence assertion whose
    failure is a hard failure of the render. *)
Definition invariant (condition : bool) (message : string) : outcome unit :=
  if condition then Normal tt else Throw (InvariantViolation message).

(** A JSX element [<type {...attributes}>{children}</type>]: the tag, the
    attribute object the JSX attributes build (written left to right, a
    spread copying own enumerable properties), and the child expression. *)
Record element : Type := Element {
  el_type : value;
  el_attributes : gmap string value;
  el_children : value;
}.

Section Text.

(** The value [useTheme()] returns. *)
Variable useTheme : value.
(** [useStyledSystem], from a style-property object to a class name. *)
Variable useStyledSystem : value → value.
(** emotion's [cx], here always called with two arguments. *)
Variable cx : value → value → value.
(** [getStylePropsForResponsiveProp(responsivePropObject, stylePropsForValue)] *)
Variable getStylePropsForResponsiveProp : value → value → outcome value.

(** Lines 31-41. *)
Definition useTextSize (textSizeProp variant : value) : outcome value :=
  do textSizesByVariant <- JS.get_prop useTheme (VStr "textSizesByVariant");
  do textSizesForVariant <- JS.get_prop textSizesByVariant variant;
  if JS.is_string textSizeProp
  then JS.get_prop textSizesForVariant textSizeProp
  else getStylePropsForResponsiveProp textSizeProp textSizesForVariant.

(** Lines 121-170. *)
Definition Text (props : gmap string value) (ref : value) : outcome element :=
  let Component := JS.get props "as" in
  let size := JS.get props "size" in
  let variant := JS.get props "variant" in
  let children := JS.get props "children" in
  let id := JS.get props "id" in
  let role := JS.get props "role" in
  let dataAttributes :=
    JS.or_default (JS.get props "dataAttributes") (VObj ∅) in
  let className := JS.get props "className" in
  let style := JS.get props "style" in
  let ariaLabel := JS.get props "aria-label" in
  let ariaLabelledBy := JS.get props "aria-labelledby" in
  let ariaDescribedBy := JS.get props "aria-describedby" in
  let ariaControls := JS.get props "aria-controls" in
  let ariaExpanded := JS.get props "aria-expanded" in
  let ariaHasPopup := JS.get props "aria-haspopup" in
  let ariaHidden := JS.get props "aria-hidden" in
  let ariaLive := JS.get props "aria-live" in
  let styleProps := JS.rest props named_props in
  do_ invariant (JS.is_defined Component) "as";
  do_ invariant (JS.is_defined size) "size";
  do_ invariant (JS.is_defined variant) "variant";
  do stylePropsForTextSize <- useTextSize size variant;
  let classNameForStyleProps :=
    useStyledSystem
      (VObj (JS.spread (JS.spread ∅ stylePropsForTextSize) (VObj styleProps))) in
  Normal
    {| el_type := Component;
       el_attributes :=
         JS.spread
           (JS.assign ∅
              [ ("ref", ref);
                ("id", id);
                ("className", cx classNameForStyleProps className);
                ("style", style);
                ("role", role);
                ("aria-label", ariaLabel);
                ("aria-labelledby", ariaLabelledBy);
                ("aria-describedby", ariaDescribedBy);
                ("aria-controls", ariaControls);
                ("aria-expanded", ariaExpanded);
                ("aria-haspopup", ariaHasPopup);
                ("aria-hidden", ariaHidden);
                ("aria-live", ariaLive) ])
           dataAttributes;
       el_children := children |}.

(** Lines 213-217. *)
Definition defaultProps : list (string * value) :=
  [ ("as", VStr "p");
    ("size", VStr TextSizes.DEFAULT);
    ("variant", VStr TextVariants.DEFAULT) ].

(** React's treatment of [defaultProps] when an element is created: each
    default is written to the props whose value for that name is
    [undefined], whether the caller left it out or passed [undefined]. *)
Definition resolve_default_props (defaults : list (string * value))
           (props : gmap string value) : gmap string value :=
  foldl (λ acc kd, if JS.is_defined (JS.get acc kd.1) then acc
                   else <[kd.1 := kd.2]> acc)
        props defaults.

(** The exported component: [React.forwardRef(Text)] with its
    [defaultProps] (lines 172, 213-219). *)
Definition ForwardedRefText (props : gmap string value) (ref : value)
  : outcome element :=
  Text (resolve_default_props defaultProps props) ref.

End Text.


(** * The responsive expansion routine *)

Module Responsive.

(** Modelled from the spec: the "theme table's style object" a breakpoint's
    size names in the row. *)
Definition style_for (row : gmap string value) (size : value)
  : option (gmap string value) :=
  match size with
  | VStr s => match row !! s with
              | Some (VObj styleProps) => Some styleProps
              | _ => None
              end
  | _ => None
  end.

(** Modelled from the spec: every style-property name some breakpoint's
    style object sets. *)
Definition property_names (byBreakpoint : gmap string (gmap string value))
  : gset string :=
  ⋃ ((λ entry, dom entry.2) <$> map_to_list byBreakpoint).

(** Modelled from the spec: the "merged responsive style-property object",
    one entry per style property, holding that property's value at each
    breakpoint whose style object sets it. *)
Definition merge_breakpoints (byBreakpoint : gmap string (gmap string value))
  : gmap string value :=
  set_to_map
    (λ k, (k, VObj (omap (λ styleProps : gmap string value, styleProps !! k)
                         byBreakpoint)))
    (property_names byBreakpoint).

(** Modelled from the spec: [getStylePropsForResponsiveProp] of
    system/utils, which is not in the sources at hand.  The spec: it
    "expands each breakpoint's Size value to the theme table's style object,
    producing a merged responsive style-property object", a style-property
    object being a mapping from style-property names to values and a
    responsive value one that varies by breakpoint name.  The spec is silent
    on arguments that are not a mapping of breakpoints to sizes of the row;
    those are left [Unmodelled]. *)
Definition getStylePropsForResponsiveProp (responsivePropObject row : value)
  : outcome value :=
  match responsivePropObject, row with
  | VObj sizes, VObj r =>
      if bool_decide (map_Forall (λ _ size, is_Some (style_for r size)) sizes)
      then Normal (VObj (merge_breakpoints (omap (style_for r) sizes)))
      else Unmodelled
  | _, _ => Unmodelled
  end.

(** The style in force at one breakpoint of a responsive style-property
    object: each property's value for that breakpoint. *)
Definition at_breakpoint (styleProps : gmap string value) (breakpoint : string)
  : gmap string value :=
  omap (λ v, match v with
             | VObj byBreakpoint => byBreakpoint !! breakpoint
             | _ => None
             end)
       styleProps.

End Responsive.

(** * The class-name combiner *)

Module Emotion.

(** Modelled from the spec: the class names one argument of [cx]
    contributes.  A class name is a non-empty string; an omitted
    [className] reads as [undefined] and contributes none.  The spec does
    not say what [cx] makes of other values (numbers, objects), which the
    types of text.js rule out: they contribute nothing here, and no
    statement concerns them. *)
Definition class_names (v : value) : list string :=
  match v with
  | VStr s => if decide (s = "") then [] else [s]
  | _ => []
  end.

(** Modelled from the spec: [cx] of emotion, imported at line 4 and not in
    the sources at hand, as line 154 calls it.  The spec: "Final class name
    = resolved style class name combined with caller-supplied class name
    string (both applied; [...] concatenated)" and "[className] prop is
    concatenated with, never replaces, the computed style class name".  The
    class names of the arguments are concatenated in the order of the
    arguments, separated by the space that separates class names in a class
    attribute. *)
Definition cx (a b : value) : value :=
  VStr (String.concat " " (class_names a ++ class_names b)).

End Emotion.

(** * A worked configuration

    Concrete collaborators to run the component on: a theme of the shape
    text.js reads, a styling hook and a class-name combiner.  The theorems
    below do not depend on them; the examples do. *)

Module Sample.

Definition textSizesByVariant : gmap string value :=
  {[ "default" :=
       VObj {[ "xsmall" := VObj {[ "fontSize" := VNum 11 ]};
               "small" := VObj {[ "fontSize" := VNum 12 ]};
               "default" := VObj {[ "fontSize" := VNum 14 ]};
               "large" := VObj {[ "fontSize" := VNum 16 ]} ]};
     "paragraph" :=
       VObj {[ "xsmall" := VObj {[ "fontSize" := VNum 11; "lineHeight" := VNum 15 ]};
               "small" := VObj {[ "fontSize" := VNum 12; "lineHeight" := VNum 17 ]};
               "default" := VObj {[ "fontSize" := VNum 14; "lineHeight" := VNum 20 ]};
               "large" := VObj {[ "fontSize" := VNum 16; "lineHeight" := VNum 23 ]} ]} ]}.

Definition theme : value :=
  VObj {[ "textSizesByVariant" := VObj textSizesByVariant ]}.

(** A styling hook that names its class after the number of style
    properties it was given. *)
Definition useStyledSystem (styleProps : value) : value :=
  VStr ("css-" +:+ pretty (size (JS.own_enumerable styleProps))).

(** Class names joined by a space, an absent or empty one skipped. *)
Definition cx (a b : value) : value :=
  match a, b with
  | VStr x, VStr "" => VStr x
  | VStr "", VStr y => VStr y
  | VStr x, VStr y => VStr (x +:+ " " +:+ y)
  | VStr x, _ => VStr x
  | _, VStr y => VStr y
  | _, _ => VStr ""
  end.

Definition Text : gmap string value → value → outcome element :=
  Text theme useStyledSystem cx Responsive.getStylePropsForResponsiveProp.

Definition ForwardedRefText : gmap string value → value → outcome element :=
  ForwardedRefText theme useStyledSystem cx
                   Responsive.getStylePropsForResponsiveProp.

Definition useTextSize : value → value → outcome value :=
  useTextSize theme Responsive.getStylePropsForResponsiveProp.

(** [<Text as="p" size="default" variant="default" fontSize={20}>hello</Text>] *)
Definition props_fontSize : gmap string value :=
  {[ "as" := VStr "p"; "size" := VStr "default"; "variant" := VStr "default";
     "fontSize" := VNum 20; "children" := VStr "hello" ]}.

(** [<Text as="p" size="default" variant="bogus" />] *)
Definition props_unknown_variant : gmap string value :=
  {[ "as" := VStr "p"; "size" := VStr "default"; "variant" := VStr "bogus" ]}.

(** [<Text as="p" size="huge" variant="paragraph" />] *)
Definition props_unknown_size : gmap string value :=
  {[ "as" := VStr "p"; "size" := VStr "huge"; "variant" := VStr "paragraph" ]}.

(** [<Text as="span" size="small" variant="default" className="mine"
          role="note" aria-label="a" dataAttributes={{'data-x': '1', role: 'status'}} />] *)
Definition props_data : gmap string value :=
  {[ "as" := VStr "span"; "size" := VStr "small"; "variant" := VStr "default";
     "className" := VStr "mine"; "role" := VStr "note";
     "aria-label" := VStr "a";
     "dataAttributes" := VObj {[ "data-x" := VStr "1"; "role" := VStr "status" ]} ]}.

(** [<Text as="p" size="default" variant="default" className="mine"
          aria-label="a"
          dataAttributes={{className: 'theirs', 'aria-label': 'b', 'aria-hidden': 'true'}} />] *)
Definition props_data_clash : gmap string value :=
  {[ "as" := VStr "p"; "size" := VStr "default"; "variant" := VStr "default";
     "className" := VStr "mine"; "aria-label" := VStr "a";
     "dataAttributes" :=
       VObj {[ "className" := VStr "theirs"; "aria-label" := VStr "b";
               "aria-hidden" := VStr "true" ]} ]}.

(** [size={{smallViewport: 'small', largeViewport: 'large'}}] *)
Definition responsive_sizes : gmap string value :=
  {[ "smallViewport" := VStr "small"; "largeViewport" := VStr "large" ]}.

End Sample.


(** * Vocabulary of the statements *)

(** The table [useTheme().textSizesByVariant] when the theme is an object
    that has one. *)
Definition theme_table (theme : value) : option (gmap string value) :=
  match theme with
  | VObj t => match t !! "textSizesByVariant" with
              | Some (VObj table) => Some table
              | _ => None
              end
  | _ => None
  end.

(** The table has a row object for each variant of [TextVariants], with an
    entry for each size of [TextSizes]. *)
Definition table_covers (table : gmap string value) : bool :=
  forallb
    (λ variant,
       match table !! variant with
       | Some (VObj row) =>
           forallb (λ size, bool_decide (is_Some (row !! size)))
                   TextSizes.values
       | _ => false
       end)
    TextVariants.values.

(** ** The parts of the render function

    The sub-expressions of [Text] the statements speak of, each under a name
    of its own; [Text_defined] below shows [Text] is made of them. *)

(** [...styleProps] of the destructuring at lines 122-141: the caller's open
    style props. *)
Definition styleProps_of (props : gmap string value) : gmap string value :=
  JS.rest props named_props.

(** The object literal handed to [useStyledSystem] (lines 146-149):
    [{...stylePropsForTextSize, ...styleProps}]. *)
Definition mergedStyleProps (stylePropsForTextSize : value)
           (styleProps : gmap string value) : gmap string value :=
  JS.spread (JS.spread ∅ stylePropsForTextSize) (VObj styleProps).

(** The attributes the render function writes itself (lines 152-164), in
    the order they are written. *)
Definition builtin_attributes (cx : value → value → value) (ref : value)
           (props : gmap string value) (classNameForStyleProps : value)
  : gmap string value :=
  JS.assign ∅
    [ ("ref", ref);
      ("id", JS.get props "id");
      ("className", cx classNameForStyleProps (JS.get props "className"));
      ("style", JS.get props "style");
      ("role", JS.get props "role");
      ("aria-label", JS.get props "aria-label");
      ("aria-labelledby", JS.get props "aria-labelledby");
      ("aria-describedby", JS.get props "aria-describedby");
      ("aria-controls", JS.get props "aria-controls");
      ("aria-expanded", JS.get props "aria-expanded");
      ("aria-haspopup", JS.get props "aria-haspopup");
      ("aria-hidden", JS.get props "aria-hidden");
      ("aria-live", JS.get props "aria-live") ].

(** The attributes of the returned element (lines 152-165):
    [{...dataAttributes}] comes last, [dataAttributes] being [{}] when the
    prop is undefined (line 129). *)
Definition host_attributes (cx : value → value → value) (ref : value)
           (props : gmap string value) (classNameForStyleProps : value)
  : gmap string value :=
  let dataAttributes :=
    JS.or_default (JS.get props "dataAttributes") (VObj ∅) in
  JS.spread (builtin_attributes cx ref props classNameForStyleProps)
            dataAttributes.

(** The [dataAttributes] the render function works with (line 129). *)
Definition dataAttributes_of (props : gmap string value) : gmap string value :=
  JS.own_enumerable (JS.or_default (JS.get props "dataAttributes") (VObj ∅)).

(** The element [Text] returns (lines 150-169) once the style for the size
    is resolved to [stylePropsForTextSize]. *)
Definition rendered (useStyledSystem : value → value) (cx : value → value → value)
           (props : gmap string value) (ref stylePropsForTextSize : value)
  : element :=
  {| el_type := JS.get props "as";
     el_attributes :=
       host_attributes cx ref props
         (useStyledSystem
            (VObj (mergedStyleProps stylePropsForTextSize (styleProps_of props))));
     el_children := JS.get props "children" |}.

(** The names of the attributes the render function writes itself
    (lines 152-164). *)
Definition builtin_attribute_names : list string :=
  [ "ref"; "id"; "className"; "style"; "role" ] ++ aria_names.

(** * Properties of the JavaScript operations *)

Lemma obind_normal {A B : Type} (a : A) (k : A → outcome B) :
  obind (Normal a) k = k a.
Proof. reflexivity. Qed.

Lemma is_defined_true (v : value) : JS.is_defined v = true ↔ v ≠ VUndefined.
Proof. destruct v; simpl; split; intros; congruence. Qed.

Lemma is_defined_false (v : value) : JS.is_defined v = false ↔ v = VUndefined.
Proof. destruct v; simpl; split; intros; congruence. Qed.

Lemma inherited_undefined (k : string) :
  k ∉ JS.object_prototype_names → JS.inherited k = VUndefined.
Proof.
  intros Hk. unfold JS.inherited.
  rewrite bool_decide_eq_false_2; done.
Qed.

Lemma get_own (o : gmap string value) (k : string) (v : value) :
  o !! k = Some v → JS.get o k = v.
Proof. intros H. unfold JS.get. by rewrite H. Qed.

Lemma get_missing (o : gmap string value) (k : string) :
  o !! k = None → k ∉ JS.object_prototype_names → JS.get o k = VUndefined.
Proof.
  intros H Hk. unfold JS.get. rewrite H. by apply inherited_undefined.
Qed.

Lemma get_prop_obj (o : gmap string value) (k : string) :
  JS.get_prop (VObj o) (VStr k) = Normal (JS.get o k).
Proof. reflexivity. Qed.

Lemma lookup_rest (o : gmap string value) (named : list string) (k : string) :
  JS.rest o named !! k = if bool_decide (k ∈ named) then None else o !! k.
Proof.
  unfold JS.rest. induction named as [|n named IH]; cbn [foldr].
  - rewrite bool_decide_eq_false_2; [done | apply not_elem_of_nil].
  - destruct (decide (n = k)) as [->|Hne].
    + rewrite lookup_delete_eq, bool_decide_eq_true_2; [done | left].
    + rewrite lookup_delete_ne, IH by done.
      destruct (decide (k ∈ named)) as [Hin|Hout].
      * rewrite !bool_decide_eq_true_2; [done | by right | done].
      * rewrite !bool_decide_eq_false_2; [done | | done].
        intros [->|?]%elem_of_cons; done.
Qed.

Lemma lookup_spread_Some (target : gmap string value) (v x : value) (k : string) :
  JS.own_enumerable v !! k = Some x → JS.spread target v !! k = Some x.
Proof. intros H. unfold JS.spread. by apply lookup_union_Some_l. Qed.

Lemma lookup_spread_None (target : gmap string value) (v : value) (k : string) :
  JS.own_enumerable v !! k = None → JS.spread target v !! k = target !! k.
Proof. intros H. unfold JS.spread. by apply lookup_union_r. Qed.


(** Closes a goal [k ∈ l] or [k ∉ l] between literals. *)
Ltac decide_elem := apply (bool_decide_unpack _); vm_compute; exact I.

(** * Default props *)

Lemma resolve_lookup_other (defaults : list (string * value))
      (props : gmap string value) (k : string) :
  k ∉ defaults.*1 → resolve_default_props defaults props !! k = props !! k.
Proof.
  unfold resolve_default_props. revert props.
  induction defaults as [|[n d] defaults IH]; intros props Hk; [done|].
  cbn in Hk. apply not_elem_of_cons in Hk as [Hne Hk].
  cbn [foldl]. rewrite IH by done. cbn [fst snd].
  destruct (JS.is_defined (JS.get props n)); [done|].
  by rewrite lookup_insert_ne.
Qed.

Lemma resolve_get_other (defaults : list (string * value))
      (props : gmap string value) (k : string) :
  k ∉ defaults.*1 →
  JS.get (resolve_default_props defaults props) k = JS.get props k.
Proof. intros Hk. unfold JS.get. by rewrite resolve_lookup_other. Qed.

Lemma resolve_step_get (acc : gmap string value) (k : string) (d : value) :
  JS.inherited k = VUndefined →
  JS.get (if JS.is_defined (JS.get acc k) then acc else <[k:=d]> acc) k
  = JS.or_default (JS.get acc k) d.
Proof.
  intros Hk. destruct (JS.is_defined (JS.get acc k)) eqn:Hd.
  - destruct (JS.get acc k); simpl in *; congruence.
  - apply is_defined_false in Hd. rewrite Hd. simpl.
    unfold JS.get. by rewrite lookup_insert_eq.
Qed.

Lemma resolve_step_other (acc : gmap string value) (k k' : string) (d : value) :
  k ≠ k' →
  JS.get (if JS.is_defined (JS.get acc k) then acc else <[k:=d]> acc) k'
  = JS.get acc k'.
Proof.
  intros Hne. destruct (JS.is_defined (JS.get acc k)); [done|].
  unfold JS.get. by rewrite lookup_insert_ne.
Qed.

Lemma resolved_as (props : gmap string value) :
  JS.get (resolve_default_props defaultProps props) "as"
  = JS.or_default (JS.get props "as") (VStr "p").
Proof.
  unfold resolve_default_props, defaultProps. cbn [foldl fst snd].
  rewrite !resolve_step_other by done. by rewrite resolve_step_get.
Qed.

Lemma resolved_size (props : gmap string value) :
  JS.get (resolve_default_props defaultProps props) "size"
  = JS.or_default (JS.get props "size") (VStr TextSizes.DEFAULT).
Proof.
  unfold resolve_default_props, defaultProps. cbn [foldl fst snd].
  rewrite resolve_step_other by done.
  rewrite resolve_step_get by done. by rewrite resolve_step_other.
Qed.

Lemma resolved_variant (props : gmap string value) :
  JS.get (resolve_default_props defaultProps props) "variant"
  = JS.or_default (JS.get props "variant") (VStr TextVariants.DEFAULT).
Proof.
  unfold resolve_default_props, defaultProps. cbn [foldl fst snd].
  rewrite resolve_step_get by done. by rewrite !resolve_step_other.
Qed.

Lemma or_default_defined (v d : value) :
  d ≠ VUndefined → JS.or_default v d ≠ VUndefined.
Proof. destruct v; simpl; congruence. Qed.

Lemma styleProps_resolved (props : gmap string value) :
  styleProps_of (resolve_default_props defaultProps props) = styleProps_of props.
Proof.
  apply map_eq. intros k. unfold styleProps_of. rewrite !lookup_rest.
  case_bool_decide as Hk; [done|].
  apply resolve_lookup_other. intros Hin. apply Hk.
  cbn in Hin. unfold named_props.
  repeat (apply elem_of_cons in Hin as [->|Hin]; [decide_elem|]).
  by apply elem_of_nil in Hin.
Qed.

Lemma host_attributes_resolved (cx : value → value → value) (ref c : value)
      (props : gmap string value) :
  host_attributes cx ref (resolve_default_props defaultProps props) c
  = host_attributes cx ref props c.
Proof.
  unfold host_attributes, builtin_attributes.
  by rewrite !resolve_get_other by decide_elem.
Qed.

(** * The render function *)

Section Render.

Variable useTheme : value.
Variable useStyledSystem : value → value.
Variable cx : value → value → value.
Variable getStylePropsForResponsiveProp : value → value → outcome value.

Local Abbreviation resolve_size := (useTextSize useTheme getStylePropsForResponsiveProp).
Local Abbreviation render :=
  (Text useTheme useStyledSystem cx getStylePropsForResponsiveProp).
Local Abbreviation render_public :=
  (ForwardedRefText useTheme useStyledSystem cx getStylePropsForResponsiveProp).
Local Abbreviation element_for := (rendered useStyledSystem cx).

(** With the three required props defined, the render function ends the way
    the style resolution ends. *)
Lemma Text_defined (props : gmap string value) (ref : value) :
  JS.get props "as" ≠ VUndefined →
  JS.get props "size" ≠ VUndefined →
  JS.get props "variant" ≠ VUndefined →
  render props ref
  = do stylePropsForTextSize <-
       resolve_size (JS.get props "size") (JS.get props "variant");
    Normal (element_for props ref stylePropsForTextSize).
Proof.
  intros Ha Hs Hv. unfold Text, invariant.
  apply is_defined_true in Ha, Hs, Hv. rewrite Ha, Hs, Hv. reflexivity.
Qed.

Lemma Text_renders (props : gmap string value) (ref sty : value) :
  JS.get props "as" ≠ VUndefined →
  JS.get props "size" ≠ VUndefined →
  JS.get props "variant" ≠ VUndefined →
  resolve_size (JS.get props "size") (JS.get props "variant") = Normal sty →
  render props ref = Normal (element_for props ref sty).
Proof.
  intros Ha Hs Hv Hsty. rewrite Text_defined by done. by rewrite Hsty.
Qed.

(** The exported component runs the render function on props in which the
    three required ones are defined. *)
Lemma ForwardedRefText_defined (props : gmap string value) (ref : value) :
  let resolved := resolve_default_props defaultProps props in
  render_public props ref
  = do stylePropsForTextSize <-
       resolve_size (JS.get resolved "size") (JS.get resolved "variant");
    Normal (element_for resolved ref stylePropsForTextSize).
Proof.
  intros resolved. unfold ForwardedRefText. fold resolved.
  apply Text_defined; subst resolved.
  - rewrite resolved_as. by apply or_default_defined.
  - rewrite resolved_size. by apply or_default_defined.
  - rewrite resolved_variant. by apply or_default_defined.
Qed.

(** The defaults change the three props they fill and nothing else of the
    element. *)
Lemma rendered_resolved (props : gmap string value) (ref sty : value) :
  element_for (resolve_default_props defaultProps props) ref sty
  = {| el_type := JS.or_default (JS.get props "as") (VStr "p");
       el_attributes :=
         host_attributes cx ref props
           (useStyledSystem
              (VObj (mergedStyleProps sty (styleProps_of props))));
       el_children := JS.get props "children" |}.
Proof.
  unfold rendered.
  rewrite resolved_as, styleProps_resolved, host_attributes_resolved.
  by rewrite resolve_get_other by decide_elem.
Qed.

(** The plain-size lookup in a row of the theme table. *)
Lemma useTextSize_row (table row : gmap string value) (variant size : string) :
  theme_table useTheme = Some table →
  table !! variant = Some (VObj row) →
  resolve_size (VStr size) (VStr variant) = Normal (JS.get row size).
Proof.
  intros Htheme Hrow. unfold useTextSize, theme_table in *.
  destruct useTheme as [| | | | |t|]; try done.
  destruct (t !! "textSizesByVariant") as [[| | | | |table'|]|] eqn:Ht; try done.
  injection Htheme as ->.
  rewrite get_prop_obj, (get_own _ _ _ Ht), obind_normal.
  rewrite get_prop_obj, (get_own _ _ _ Hrow), obind_normal.
  reflexivity.
Qed.

Lemma table_covers_row (table : gmap string value) (variant : string) :
  table_covers table = true →
  variant ∈ TextVariants.values →
  ∃ row, table !! variant = Some (VObj row)
         ∧ ∀ size, size ∈ TextSizes.values → is_Some (row !! size).
Proof.
  unfold table_covers. rewrite forallb_forall. intros Hall Hv.
  apply list_elem_of_In, Hall in Hv.
  destruct (table !! variant) as [[| | | | |row|]|]; try done.
  exists row. split; [done|]. intros size Hs.
  rewrite forallb_forall in Hv. apply list_elem_of_In, Hv in Hs.
  by apply bool_decide_eq_true in Hs.
Qed.

(** C1. For every variant of [TextVariants] and every plain size of
    [TextSizes], over a theme whose table has a row per variant with an
    entry per size, [useTextSize] returns the table entry at
    [variant][size] itself. *)
Theorem useTextSize_plain_is_theme_entry
        (table : gmap string value) (variant size : string) :
  theme_table useTheme = Some table →
  table_covers table = true →
  variant ∈ TextVariants.values →
  size ∈ TextSizes.values →
  ∃ row entry,
    table !! variant = Some (VObj row)
    ∧ row !! size = Some entry
    ∧ resolve_size (VStr size) (VStr variant) = Normal entry.
Proof.
  intros Htheme Hcov Hv Hs.
  destruct (table_covers_row _ _ Hcov Hv) as (row & Hrow & Hsizes).
  destruct (Hsizes size Hs) as [entry Hentry].
  exists row, entry. split_and!; [done..|].
  rewrite (useTextSize_row _ _ _ _ Htheme Hrow).
  by rewrite (get_own _ _ _ Hentry).
Qed.

Lemma Text_normal_inv (props : gmap string value) (ref : value) (el : element) :
  render props ref = Normal el →
  ∃ sty, resolve_size (JS.get props "size") (JS.get props "variant") = Normal sty
         ∧ el = element_for props ref sty.
Proof.
  unfold Text, invariant. intros H.
  destruct (JS.is_defined (JS.get props "as")); [|done].
  destruct (JS.is_defined (JS.get props "size")); [|done].
  destruct (JS.is_defined (JS.get props "variant")); [|done].
  simpl in H.
  destruct (resolve_size (JS.get props "size") (JS.get props "variant"))
    as [sty| |]; [|done..].
  exists sty. split; [done|]. simpl in H. by injection H as <-.
Qed.

Lemma lookup_mergedStyleProps_caller (sty : value)
      (styleProps : gmap string value) (k : string) (v : value) :
  styleProps !! k = Some v → mergedStyleProps sty styleProps !! k = Some v.
Proof. intros H. unfold mergedStyleProps. by apply lookup_spread_Some. Qed.

Lemma lookup_mergedStyleProps_theme (sty : value)
      (styleProps : gmap string value) (k : string) :
  styleProps !! k = None →
  mergedStyleProps sty styleProps !! k = JS.own_enumerable sty !! k.
Proof.
  intros H. unfold mergedStyleProps.
  rewrite lookup_spread_None by done.
  unfold JS.spread. by rewrite (right_id_L ∅ (∪)).
Qed.

(** C2. Whenever the render function gets past its checks and the style for
    the size is resolved, the object handed to the styling hook is the
    size/variant-derived style object with the caller's open style props
    (every prop the function does not name) spread over it: a key the caller
    passed carries the caller's value, whatever the theme says for it; a key
    the caller did not pass carries the theme's. *)
Theorem caller_style_props_win
        (props : gmap string value) (ref stylePropsForTextSize : value) :
  JS.get props "as" ≠ VUndefined →
  JS.get props "size" ≠ VUndefined →
  JS.get props "variant" ≠ VUndefined →
  resolve_size (JS.get props "size") (JS.get props "variant")
  = Normal stylePropsForTextSize →
  let final := mergedStyleProps stylePropsForTextSize (styleProps_of props) in
  render props ref
  = Normal {| el_type := JS.get props "as";
              el_attributes :=
                host_attributes cx ref props (useStyledSystem (VObj final));
              el_children := JS.get props "children" |}
  ∧ (∀ k v, k ∉ named_props → props !! k = Some v → final !! k = Some v)
  ∧ (∀ k, styleProps_of props !! k = None →
          final !! k = JS.own_enumerable stylePropsForTextSize !! k).
Proof.
  intros Ha Hs Hv Hsty final. split_and!.
  - by rewrite (Text_renders _ ref _ Ha Hs Hv Hsty).
  - intros k v Hk Hprop. apply lookup_mergedStyleProps_caller.
    unfold styleProps_of. rewrite lookup_rest.
    by rewrite bool_decide_eq_false_2.
  - intros k Hk. by apply lookup_mergedStyleProps_theme.
Qed.

(** C3, as amended. The three assertions fail exactly when [as], [size] or
    [variant] is undefined, in that order and before any style is resolved;
    when the three are defined the render ends as the style resolution ends
    (which may itself fail); the exported component, whose defaults fill the
    three props, always reaches the style resolution. *)
Theorem invariant_failures (props : gmap string value) (ref : value) :
  (JS.get props "as" = VUndefined →
   render props ref = Throw (InvariantViolation "as"))
  ∧ (JS.get props "as" ≠ VUndefined → JS.get props "size" = VUndefined →
     render props ref = Throw (InvariantViolation "size"))
  ∧ (JS.get props "as" ≠ VUndefined → JS.get props "size" ≠ VUndefined →
     JS.get props "variant" = VUndefined →
     render props ref = Throw (InvariantViolation "variant"))
  ∧ (JS.get props "as" ≠ VUndefined → JS.get props "size" ≠ VUndefined →
     JS.get props "variant" ≠ VUndefined →
     render props ref
     = do stylePropsForTextSize <-
          resolve_size (JS.get props "size") (JS.get props "variant");
       Normal (element_for props ref stylePropsForTextSize))
  ∧ (let resolved := resolve_default_props defaultProps props in
     JS.get resolved "as" ≠ VUndefined
     ∧ JS.get resolved "size" ≠ VUndefined
     ∧ JS.get resolved "variant" ≠ VUndefined
     ∧ render_public props ref
       = do stylePropsForTextSize <-
            resolve_size (JS.get resolved "size") (JS.get resolved "variant");
         Normal (element_for resolved ref stylePropsForTextSize)).
Proof.
  split_and!.
  - intros Ha. unfold Text. by rewrite Ha.
  - intros Ha%is_defined_true Hs. unfold Text. by rewrite Ha, Hs.
  - intros Ha%is_defined_true Hs%is_defined_true Hv. unfold Text.
    by rewrite Ha, Hs, Hv.
  - apply Text_defined.
  - intros resolved. subst resolved. split_and!.
    + rewrite resolved_as. by apply or_default_defined.
    + rewrite resolved_size. by apply or_default_defined.
    + rewrite resolved_variant. by apply or_default_defined.
    + apply ForwardedRefText_defined.
Qed.

(** The plain-size lookup when the theme table has no row for the variant. *)
Lemma useTextSize_no_row (table : gmap string value) (variant size : string) :
  theme_table useTheme = Some table →
  table !! variant = None →
  variant ∉ JS.object_prototype_names →
  resolve_size (VStr size) (VStr variant) = Throw TypeError.
Proof.
  intros Htheme Hrow Hproto. unfold useTextSize, theme_table in *.
  destruct useTheme as [| | | | |t|]; try done.
  destruct (t !! "textSizesByVariant") as [[| | | | |table'|]|] eqn:Ht; try done.
  injection Htheme as ->.
  rewrite get_prop_obj, (get_own _ _ _ Ht), obind_normal.
  rewrite get_prop_obj, (get_missing _ _ Hrow Hproto), obind_normal.
  reflexivity.
Qed.

Lemma mergedStyleProps_undefined (styleProps : gmap string value) :
  mergedStyleProps VUndefined styleProps = styleProps.
Proof.
  unfold mergedStyleProps, JS.spread. simpl.
  by rewrite !(right_id_L ∅ (∪)).
Qed.

(** C4, as amended. Over a theme with a table: a size string that names no
    entry of the variant's row (and no member objects inherit) is not
    validated and raises nothing, its lookup is [undefined] and the element
    is rendered with the caller's style props alone; a variant string that
    names no row of the table (and no inherited member) is not validated
    either, but the size lookup on its undefined row throws a TypeError,
    which ends the render. *)
Theorem unknown_size_or_variant
        (table : gmap string value) (variant size : string)
        (props : gmap string value) (ref : value) :
  theme_table useTheme = Some table →
  JS.get props "as" ≠ VUndefined →
  JS.get props "size" = VStr size →
  JS.get props "variant" = VStr variant →
  (∀ row, table !! variant = Some (VObj row) →
          row !! size = None →
          size ∉ JS.object_prototype_names →
          resolve_size (VStr size) (VStr variant) = Normal VUndefined
          ∧ render props ref = Normal (element_for props ref VUndefined)
          ∧ mergedStyleProps VUndefined (styleProps_of props)
            = styleProps_of props)
  ∧ (table !! variant = None →
     variant ∉ JS.object_prototype_names →
     resolve_size (VStr size) (VStr variant) = Throw TypeError
     ∧ render props ref = Throw TypeError).
Proof.
  intros Htheme Ha Hs Hv. split.
  - intros row Hrow Hsize Hproto.
    assert (resolve_size (VStr size) (VStr variant) = Normal VUndefined) as Hres.
    { rewrite (useTextSize_row _ _ _ _ Htheme Hrow).
      by rewrite get_missing. }
    split_and!; [done| |apply mergedStyleProps_undefined].
    apply Text_renders; rewrite ?Hs, ?Hv; done.
  - intros Hrow Hproto.
    pose proof (useTextSize_no_row _ _ size Htheme Hrow Hproto) as Hres.
    split; [done|].
    rewrite Text_defined by (rewrite ?Hs, ?Hv; done).
    by rewrite Hs, Hv, Hres.
Qed.

Lemma dataAttributes_of_obj (props da : gmap string value) :
  props !! "dataAttributes" = Some (VObj da) → dataAttributes_of props = da.
Proof. intros H. unfold dataAttributes_of. by rewrite (get_own _ _ _ H). Qed.

Lemma lookup_host_attributes_data (ref c : value) (props : gmap string value)
      (k : string) (v : value) :
  dataAttributes_of props !! k = Some v →
  host_attributes cx ref props c !! k = Some v.
Proof. intros H. unfold host_attributes. by apply lookup_spread_Some. Qed.

Lemma lookup_host_attributes_builtin (ref c : value) (props : gmap string value)
      (k : string) :
  dataAttributes_of props !! k = None →
  host_attributes cx ref props c !! k = builtin_attributes cx ref props c !! k.
Proof. intros H. unfold host_attributes. by apply lookup_spread_None. Qed.

(** C5. [dataAttributes] is spread onto the element after the attributes the
    render function writes itself: every entry of [dataAttributes] is an
    attribute of the rendered element with the entry's value, also when its
    name is that of a built-in attribute ([ref], [id], [className], [style],
    [role], the eight aria attributes), whose value it replaces; names
    [dataAttributes] does not have keep the built-in value. *)
Theorem dataAttributes_override
        (props da : gmap string value) (ref stylePropsForTextSize : value) :
  JS.get props "as" ≠ VUndefined →
  JS.get props "size" ≠ VUndefined →
  JS.get props "variant" ≠ VUndefined →
  resolve_size (JS.get props "size") (JS.get props "variant")
  = Normal stylePropsForTextSize →
  props !! "dataAttributes" = Some (VObj da) →
  ∃ el,
    render props ref = Normal el
    ∧ (∀ k v, da !! k = Some v → el_attributes el !! k = Some v)
    ∧ (∀ k, da !! k = None →
            el_attributes el !! k
            = builtin_attributes
                cx ref props
                (useStyledSystem
                   (VObj (mergedStyleProps stylePropsForTextSize
                                           (styleProps_of props)))) !! k).
Proof.
  intros Ha Hs Hv Hsty Hda.
  eexists. split; [by apply Text_renders|]. simpl. split.
  - intros k v Hk. apply lookup_host_attributes_data.
    by rewrite (dataAttributes_of_obj _ _ Hda).
  - intros k Hk. apply lookup_host_attributes_builtin.
    by rewrite (dataAttributes_of_obj _ _ Hda).
Qed.

(** The class attribute is what [cx] makes of the class name the styling
    hook returned and the caller's [className], in that order (line 154),
    unless [dataAttributes] has a [className] entry. *)
Lemma className_attribute
      (props : gmap string value) (ref stylePropsForTextSize : value) :
  JS.get props "as" ≠ VUndefined →
  JS.get props "size" ≠ VUndefined →
  JS.get props "variant" ≠ VUndefined →
  resolve_size (JS.get props "size") (JS.get props "variant")
  = Normal stylePropsForTextSize →
  dataAttributes_of props !! "className" = None →
  ∃ el,
    render props ref = Normal el
    ∧ el_attributes el !! "className"
      = Some (cx (useStyledSystem
                    (VObj (mergedStyleProps stylePropsForTextSize
                                            (styleProps_of props))))
                 (JS.get props "className")).
Proof.
  intros Ha Hs Hv Hsty Hda.
  eexists. split; [by apply Text_renders|]. simpl.
  by rewrite lookup_host_attributes_builtin.
Qed.

Lemma lookup_builtin_aria (ref c : value) (props : gmap string value)
      (name : string) :
  name ∈ aria_names →
  builtin_attributes cx ref props c !! name = Some (JS.get props name).
Proof.
  intros Hin. unfold aria_names in Hin.
  repeat (apply elem_of_cons in Hin as [->|Hin]; [reflexivity|]).
  by apply elem_of_nil in Hin.
Qed.

(** C9, as amended. For each of the eight aria props that [dataAttributes]
    has no entry for: the attribute of that name on the rendered element is
    what the prop reads as, so a supplied value appears unchanged, and an
    omitted prop leaves the attribute undefined (an attribute React does not
    render). *)
Theorem aria_forwarded
        (props : gmap string value) (ref stylePropsForTextSize : value)
        (name : string) :
  JS.get props "as" ≠ VUndefined →
  JS.get props "size" ≠ VUndefined →
  JS.get props "variant" ≠ VUndefined →
  resolve_size (JS.get props "size") (JS.get props "variant")
  = Normal stylePropsForTextSize →
  name ∈ aria_names →
  dataAttributes_of props !! name = None →
  ∃ el,
    render props ref = Normal el
    ∧ (∀ v, props !! name = Some v → el_attributes el !! name = Some v)
    ∧ (props !! name = None → JS.get (el_attributes el) name = VUndefined).
Proof.
  intros Ha Hs Hv Hsty Hname Hda.
  eexists. split; [by apply Text_renders|]. simpl.
  assert (host_attributes cx ref props
            (useStyledSystem
               (VObj (mergedStyleProps stylePropsForTextSize
                                       (styleProps_of props)))) !! name
          = Some (JS.get props name)) as Hattr.
  { rewrite lookup_host_attributes_builtin by done.
    by apply lookup_builtin_aria. }
  split.
  - intros v Hv'. by rewrite Hattr, (get_own _ _ _ Hv').
  - intros Hv'. rewrite (get_own _ _ _ Hattr).
    apply get_missing; [done|].
    unfold aria_names in Hname.
    repeat (apply elem_of_cons in Hname as [->|Hname]; [decide_elem|]).
    by apply elem_of_nil in Hname.
Qed.

Lemma get_omitted (props : gmap string value) (k : string) (d : value) :
  props !! k = None → JS.inherited k = VUndefined →
  JS.or_default (JS.get props k) d = d.
Proof. intros H Hk. unfold JS.get. by rewrite H, Hk. Qed.

(** C8. The exported component renders with the props its defaults have
    completed: when the caller omits [as] the element is a [p]; when the
    caller omits [size] the size used is ['default']; when the caller omits
    [variant] the variant used is ['default'].  With all three omitted, over
    a theme whose table covers the variants and sizes, the render returns a
    [p] element styled by the table entry at [default][default]. *)
Theorem defaults_applied (props : gmap string value) (ref : value) :
  let resolved := resolve_default_props defaultProps props in
  render_public props ref
  = (do stylePropsForTextSize <-
        resolve_size (JS.get resolved "size") (JS.get resolved "variant");
     Normal (element_for resolved ref stylePropsForTextSize))
  ∧ (props !! "as" = None →
     JS.get resolved "as" = VStr "p"
     ∧ ∀ sty, el_type (element_for resolved ref sty) = VStr "p")
  ∧ (props !! "size" = None → JS.get resolved "size" = VStr "default")
  ∧ (props !! "variant" = None → JS.get resolved "variant" = VStr "default")
  ∧ (props !! "as" = None → props !! "size" = None →
     props !! "variant" = None →
     ∀ table, theme_table useTheme = Some table → table_covers table = true →
     ∃ row entry,
       table !! "default" = Some (VObj row)
       ∧ row !! "default" = Some entry
       ∧ render_public props ref = Normal (element_for resolved ref entry)
       ∧ el_type (element_for resolved ref entry) = VStr "p").
Proof.
  intros resolved.
  assert (props !! "as" = None → JS.get resolved "as" = VStr "p") as Has.
  { intros H. subst resolved. rewrite resolved_as. by apply get_omitted. }
  assert (props !! "size" = None → JS.get resolved "size" = VStr "default")
    as Hsize.
  { intros H. subst resolved. rewrite resolved_size. by apply get_omitted. }
  assert (props !! "variant" = None → JS.get resolved "variant" = VStr "default")
    as Hvariant.
  { intros H. subst resolved. rewrite resolved_variant. by apply get_omitted. }
  split_and!; [apply ForwardedRefText_defined| |done|done|].
  - intros H. split; [by apply Has|]. intros sty. simpl. by apply Has.
  - intros Ha Hs Hv table Htheme Hcov.
    destruct (table_covers_row table "default" Hcov) as (row & Hrow & Hsizes);
      [decide_elem|].
    destruct (Hsizes "default") as [entry Hentry]; [decide_elem|].
    pose proof (useTextSize_row _ _ _ "default" Htheme Hrow) as Hres.
    rewrite (get_own _ _ _ Hentry) in Hres.
    exists row, entry. split_and!; [done|done| |simpl; by apply Has].
    rewrite ForwardedRefText_defined. fold resolved.
    by rewrite (Hsize Hs), (Hvariant Hv), Hres.
Qed.

(** C10. The [children] prop is the child of the rendered element, as it was
    passed: in every element the render function or the exported component
    returns, and an element is returned whenever the three required props
    are defined and the style for the size is resolved. *)
Theorem children_forwarded (props : gmap string value) (ref : value) :
  (∀ el, render props ref = Normal el →
         el_children el = JS.get props "children")
  ∧ (∀ el, render_public props ref = Normal el →
           el_children el = JS.get props "children")
  ∧ (∀ sty, JS.get props "as" ≠ VUndefined →
            JS.get props "size" ≠ VUndefined →
            JS.get props "variant" ≠ VUndefined →
            resolve_size (JS.get props "size") (JS.get props "variant")
            = Normal sty →
            ∃ el, render props ref = Normal el
                  ∧ el_children el = JS.get props "children").
Proof.
  split_and!.
  - intros el (sty & _ & ->)%Text_normal_inv. reflexivity.
  - intros el (sty & _ & ->)%Text_normal_inv. unfold rendered.
    cbn [el_children]. apply resolve_get_other. decide_elem.
  - intros sty Ha Hs Hv Hsty. eexists. split; [by apply Text_renders|done].
Qed.

(** With a size that is not a string, the style is whatever the responsive
    expansion routine makes of the size and the variant's row. *)
Lemma useTextSize_delegates (table row : gmap string value) (variant : string)
      (textSizeProp : value) :
  theme_table useTheme = Some table →
  table !! variant = Some (VObj row) →
  JS.is_string textSizeProp = false →
  resolve_size textSizeProp (VStr variant)
  = getStylePropsForResponsiveProp textSizeProp (VObj row).
Proof.
  intros Htheme Hrow Hstr. unfold useTextSize, theme_table in *.
  destruct useTheme as [| | | | |t|]; try done.
  destruct (t !! "textSizesByVariant") as [[| | | | |table'|]|] eqn:Ht; try done.
  injection Htheme as ->.
  rewrite get_prop_obj, (get_own _ _ _ Ht), obind_normal.
  rewrite get_prop_obj, (get_own _ _ _ Hrow), obind_normal.
  by rewrite Hstr.
Qed.

End Render.

(** * The class attribute *)

Lemma cx_appends (computed name : string) :
  computed ≠ "" → name ≠ "" →
  Emotion.cx (VStr computed) (VStr name) = VStr (computed +:+ " " +:+ name).
Proof.
  intros Hc Hn. unfold Emotion.cx, Emotion.class_names.
  by rewrite !decide_False by done.
Qed.

Lemma cx_alone (computed : string) (className : value) :
  computed ≠ "" →
  className = VUndefined ∨ className = VStr "" →
  Emotion.cx (VStr computed) className = VStr computed.
Proof.
  intros Hc Hn. unfold Emotion.cx, Emotion.class_names.
  rewrite decide_False by done. by destruct Hn as [-> | ->].
Qed.

(** C7, as amended. When [dataAttributes] has no [className] entry, the
    class attribute of the rendered element is the concatenation of the
    class name the styling hook resolved and the caller's [className]: the
    computed class name, then a space and the caller's class name appended
    to it; and the computed class name alone when the caller passes no
    [className] (or an empty one).  The caller's [className] never takes the
    place of the computed class name. *)
Theorem className_combined
        (useTheme : value) (useStyledSystem : value → value)
        (expansion : value → value → outcome value)
        (props : gmap string value) (ref stylePropsForTextSize : value)
        (computed : string) :
  JS.get props "as" ≠ VUndefined →
  JS.get props "size" ≠ VUndefined →
  JS.get props "variant" ≠ VUndefined →
  useTextSize useTheme expansion (JS.get props "size") (JS.get props "variant")
  = Normal stylePropsForTextSize →
  useStyledSystem
    (VObj (mergedStyleProps stylePropsForTextSize (styleProps_of props)))
  = VStr computed →
  computed ≠ "" →
  dataAttributes_of props !! "className" = None →
  ∃ el,
    Text useTheme useStyledSystem Emotion.cx expansion props ref = Normal el
    ∧ (∀ name, JS.get props "className" = VStr name → name ≠ "" →
               el_attributes el !! "className"
               = Some (VStr (computed +:+ " " +:+ name)))
    ∧ (JS.get props "className" = VUndefined
       ∨ JS.get props "className" = VStr "" →
       el_attributes el !! "className" = Some (VStr computed)).
Proof.
  intros Ha Hs Hv Hsty Hhook Hcomputed Hda.
  destruct (className_attribute useTheme useStyledSystem Emotion.cx expansion
                                props ref stylePropsForTextSize
                                Ha Hs Hv Hsty Hda)
    as (el & Hrender & Hclass).
  exists el. split; [done|]. rewrite Hclass, Hhook. split.
  - intros name -> Hname. by rewrite cx_appends.
  - intros Hnone. by rewrite cx_alone.
Qed.

(** * Responsive sizes *)

Lemma elem_of_property_names (byBreakpoint : gmap string (gmap string value))
      (k : string) :
  k ∈ Responsive.property_names byBreakpoint
  ↔ ∃ breakpoint styleProps,
      byBreakpoint !! breakpoint = Some styleProps ∧ is_Some (styleProps !! k).
Proof.
  unfold Responsive.property_names. rewrite elem_of_union_list. split.
  - intros (X & HX & Hk). apply list_elem_of_fmap in HX as ([bp sty] & -> & Hin).
    apply elem_of_map_to_list in Hin. exists bp, sty. split; [done|].
    by apply elem_of_dom.
  - intros (bp & sty & Hbp & Hk). exists (dom sty). split.
    + apply list_elem_of_fmap. exists (bp, sty). split; [done|].
      by apply elem_of_map_to_list.
    + by apply elem_of_dom.
Qed.

Lemma lookup_merge_breakpoints (byBreakpoint : gmap string (gmap string value))
      (k : string) :
  Responsive.merge_breakpoints byBreakpoint !! k
  = if bool_decide (k ∈ Responsive.property_names byBreakpoint)
    then Some (VObj (omap (λ styleProps : gmap string value, styleProps !! k)
                          byBreakpoint))
    else None.
Proof.
  unfold Responsive.merge_breakpoints. apply option_eq. intros x.
  rewrite lookup_set_to_map by (intros y y' _ _ Heq; exact Heq).
  case_bool_decide as Hin; split.
  - intros (y & _ & [= -> <-]). done.
  - intros [= <-]. by exists k.
  - intros (y & Hy & [= -> <-]). done.
  - done.
Qed.

(** What the expansion holds for a breakpoint is the style object of that
    breakpoint. *)
Lemma at_breakpoint_merge (byBreakpoint : gmap string (gmap string value))
      (breakpoint : string) (styleProps : gmap string value) :
  byBreakpoint !! breakpoint = Some styleProps →
  Responsive.at_breakpoint (Responsive.merge_breakpoints byBreakpoint) breakpoint
  = styleProps.
Proof.
  intros Hbp. apply map_eq. intros k. unfold Responsive.at_breakpoint.
  rewrite lookup_omap, lookup_merge_breakpoints.
  case_bool_decide as Hin; simpl.
  - by rewrite lookup_omap, Hbp.
  - destruct (styleProps !! k) as [v|] eqn:Hk; [|done].
    exfalso. apply Hin, elem_of_property_names. by exists breakpoint, styleProps.
Qed.

(** C6. Over a theme with a table and a variant with a row in it, a size
    that is a mapping from breakpoint names to sizes of the row is handed,
    with the row, to the responsive expansion routine, whose result is the
    style; and in that result the style at each breakpoint is the row's
    entry for the size given at that breakpoint. *)
Theorem responsive_size_resolves
        (useTheme : value) (table row sizes : gmap string value)
        (variant : string) :
  theme_table useTheme = Some table →
  table !! variant = Some (VObj row) →
  (∀ breakpoint v, sizes !! breakpoint = Some v →
                   ∃ size entry, v = VStr size ∧ row !! size = Some (VObj entry)) →
  (∀ expansion,
     useTextSize useTheme expansion (VObj sizes) (VStr variant)
     = expansion (VObj sizes) (VObj row))
  ∧ ∃ styleProps,
      useTextSize useTheme Responsive.getStylePropsForResponsiveProp
                  (VObj sizes) (VStr variant)
      = Normal (VObj styleProps)
      ∧ ∀ breakpoint size entry,
          sizes !! breakpoint = Some (VStr size) →
          row !! size = Some (VObj entry) →
          Responsive.at_breakpoint styleProps breakpoint = entry.
Proof.
  intros Htheme Hrow Hsizes.
  assert (∀ expansion,
            useTextSize useTheme expansion (VObj sizes) (VStr variant)
            = expansion (VObj sizes) (VObj row)) as Hdelegates.
  { intros expansion. by eapply useTextSize_delegates. }
  split; [done|].
  eexists. split.
  - rewrite Hdelegates. unfold Responsive.getStylePropsForResponsiveProp.
    rewrite bool_decide_eq_true_2; [reflexivity|].
    intros bp v Hv. destruct (Hsizes bp v Hv) as (size & entry & -> & Hentry).
    simpl. by rewrite Hentry.
  - intros bp size entry Hbp Hentry. apply at_breakpoint_merge.
    rewrite lookup_omap, Hbp. simpl. by rewrite Hentry.
Qed.

(** * The component at work

    The theorems above applied to the worked configuration, and the renders
    that separate what the component does from what a reading of its
    documentation might expect. *)

Ltac defined := vm_compute; discriminate.

Lemma useTextSize_plain_is_theme_entry_witness :
  ∃ row entry,
    Sample.textSizesByVariant !! "paragraph" = Some (VObj row)
    ∧ row !! "small" = Some entry
    ∧ Sample.useTextSize (VStr "small") (VStr "paragraph") = Normal entry.
Proof.
  apply (useTextSize_plain_is_theme_entry
           Sample.theme Responsive.getStylePropsForResponsiveProp
           Sample.textSizesByVariant "paragraph" "small").
  - reflexivity.
  - vm_compute. reflexivity.
  - decide_elem.
  - decide_elem.
Defined.

Lemma caller_style_props_win_witness :
  Sample.useTextSize (VStr "default") (VStr "default")
  = Normal (VObj {[ "fontSize" := VNum 14 ]})
  ∧ mergedStyleProps (VObj {[ "fontSize" := VNum 14 ]})
                     (styleProps_of Sample.props_fontSize) !! "fontSize"
    = Some (VNum 20)
  ∧ is_normal (Sample.Text Sample.props_fontSize VNull).
Proof.
  assert (Sample.useTextSize (VStr "default") (VStr "default")
          = Normal (VObj {[ "fontSize" := VNum 14 ]})) as Hsty.
  { vm_compute. reflexivity. }
  pose proof (caller_style_props_win
                Sample.theme Sample.useStyledSystem Sample.cx
                Responsive.getStylePropsForResponsiveProp
                Sample.props_fontSize VNull (VObj {[ "fontSize" := VNum 14 ]})
                ltac:(defined) ltac:(defined) ltac:(defined) Hsty) as H.
  cbv zeta in H. destruct H as (Hrender & Hcaller & _).
  split; [exact Hsty|]. split.
  - apply Hcaller; [decide_elem | reflexivity].
  - eexists. exact Hrender.
Defined.

(** A render in which [as], [size] and [variant] are all defined and which
    nevertheless fails: the variant names no row of the table, and the size
    is looked up in [undefined]. *)
Lemma unknown_variant_fails_render :
  JS.get Sample.props_unknown_variant "as" = VStr "p"
  ∧ JS.get Sample.props_unknown_variant "size" = VStr "default"
  ∧ JS.get Sample.props_unknown_variant "variant" = VStr "bogus"
  ∧ Sample.Text Sample.props_unknown_variant VNull = Throw TypeError
  ∧ Sample.ForwardedRefText {[ "variant" := VStr "bogus" ]} VNull
    = Throw TypeError.
Proof. repeat split. Qed.

(** A variant outside [TextVariants]: the style lookup does not yield
    [undefined], it throws. *)
Lemma unknown_variant_lookup_throws :
  ("bogus" ∉ TextVariants.values)
  ∧ Sample.textSizesByVariant !! "bogus" = None
  ∧ Sample.useTextSize (VStr "default") (VStr "bogus") = Throw TypeError
  ∧ Sample.useTextSize (VStr "large") (VStr "bogus") = Throw TypeError
  ∧ Sample.ForwardedRefText {[ "variant" := VStr "bogus" ]} VNull
    = Throw TypeError.
Proof. split; [decide_elem|]. repeat split. Qed.

Lemma unknown_size_or_variant_witness :
  (Sample.useTextSize (VStr "huge") (VStr "paragraph") = Normal VUndefined
   ∧ Sample.Text Sample.props_unknown_size VNull
     = Normal (rendered Sample.useStyledSystem Sample.cx
                        Sample.props_unknown_size VNull VUndefined))
  ∧ (Sample.useTextSize (VStr "default") (VStr "bogus") = Throw TypeError
     ∧ Sample.Text Sample.props_unknown_variant VNull = Throw TypeError).
Proof.
  split.
  - destruct (unknown_size_or_variant
                Sample.theme Sample.useStyledSystem Sample.cx
                Responsive.getStylePropsForResponsiveProp
                Sample.textSizesByVariant "paragraph" "huge"
                Sample.props_unknown_size VNull
                ltac:(reflexivity) ltac:(defined) ltac:(reflexivity)
                ltac:(reflexivity)) as [Hsize _].
    edestruct Hsize as (Hres & Hrender & _);
      [reflexivity | reflexivity | decide_elem |].
    split; [exact Hres | exact Hrender].
  - destruct (unknown_size_or_variant
                Sample.theme Sample.useStyledSystem Sample.cx
                Responsive.getStylePropsForResponsiveProp
                Sample.textSizesByVariant "bogus" "default"
                Sample.props_unknown_variant VNull
                ltac:(reflexivity) ltac:(defined) ltac:(reflexivity)
                ltac:(reflexivity)) as [_ Hvariant].
    apply Hvariant; [reflexivity | decide_elem].
Defined.

Lemma dataAttributes_override_witness :
  ∃ el, Sample.Text Sample.props_data VNull = Normal el
        ∧ el_attributes el !! "role" = Some (VStr "status")
        ∧ el_attributes el !! "data-x" = Some (VStr "1")
        ∧ el_attributes el !! "aria-label" = Some (VStr "a").
Proof.
  destruct (dataAttributes_override
              Sample.theme Sample.useStyledSystem Sample.cx
              Responsive.getStylePropsForResponsiveProp
              Sample.props_data
              {[ "data-x" := VStr "1"; "role" := VStr "status" ]}
              VNull (VObj {[ "fontSize" := VNum 12 ]})
              ltac:(defined) ltac:(defined) ltac:(defined)
              ltac:(vm_compute; reflexivity) ltac:(reflexivity))
    as (el & Hrender & Hdata & Hbuiltin).
  exists el. split; [exact Hrender|]. split; [|split].
  - apply Hdata. reflexivity.
  - apply Hdata. reflexivity.
  - rewrite Hbuiltin by reflexivity. reflexivity.
Defined.

(** A [className] entry in [dataAttributes]: the class attribute is neither
    the computed class name nor the caller's [className]. *)
Lemma dataAttributes_className_replaces :
  ∃ el, Sample.Text Sample.props_data_clash VNull = Normal el
        ∧ JS.get Sample.props_data_clash "className" = VStr "mine"
        ∧ Sample.useStyledSystem
            (VObj (mergedStyleProps (VObj {[ "fontSize" := VNum 14 ]})
                                    (styleProps_of Sample.props_data_clash)))
          = VStr "css-1"
        ∧ Sample.cx (VStr "css-1") (VStr "mine") = VStr "css-1 mine"
        ∧ el_attributes el !! "className" = Some (VStr "theirs").
Proof. eexists. split; [reflexivity|]. repeat split. Qed.

Lemma className_combined_witness :
  ∃ el,
    Text Sample.theme Sample.useStyledSystem Emotion.cx
         Responsive.getStylePropsForResponsiveProp Sample.props_data VNull
    = Normal el
    ∧ JS.get Sample.props_data "className" = VStr "mine"
    ∧ el_attributes el !! "className" = Some (VStr "css-1 mine").
Proof.
  destruct (className_combined
              Sample.theme Sample.useStyledSystem
              Responsive.getStylePropsForResponsiveProp
              Sample.props_data VNull (VObj {[ "fontSize" := VNum 12 ]})
              "css-1"
              ltac:(defined) ltac:(defined) ltac:(defined)
              ltac:(vm_compute; reflexivity) ltac:(vm_compute; reflexivity)
              ltac:(discriminate) ltac:(reflexivity))
    as (el & Hrender & Happended & _).
  exists el. split; [exact Hrender|]. split; [reflexivity|].
  apply (Happended "mine"); [reflexivity | discriminate].
Defined.

(** aria entries in [dataAttributes]: a supplied [aria-label] does not reach
    the element, and an [aria-hidden] the caller omitted as a prop is there. *)
Lemma dataAttributes_aria_replaces :
  ∃ el, Sample.Text Sample.props_data_clash VNull = Normal el
        ∧ Sample.props_data_clash !! "aria-label" = Some (VStr "a")
        ∧ el_attributes el !! "aria-label" = Some (VStr "b")
        ∧ Sample.props_data_clash !! "aria-hidden" = None
        ∧ el_attributes el !! "aria-hidden" = Some (VStr "true").
Proof. eexists. split; [reflexivity|]. repeat split. Qed.

Lemma aria_forwarded_witness :
  ∃ el, Sample.Text Sample.props_data VNull = Normal el
        ∧ el_attributes el !! "aria-label" = Some (VStr "a").
Proof.
  destruct (aria_forwarded
              Sample.theme Sample.useStyledSystem Sample.cx
              Responsive.getStylePropsForResponsiveProp
              Sample.props_data VNull (VObj {[ "fontSize" := VNum 12 ]})
              "aria-label"
              ltac:(defined) ltac:(defined) ltac:(defined)
              ltac:(vm_compute; reflexivity) ltac:(decide_elem)
              ltac:(reflexivity))
    as (el & Hrender & Hsupplied & _).
  exists el. split; [exact Hrender|]. apply Hsupplied. reflexivity.
Defined.

Lemma responsive_size_resolves_witness :
  ∃ styleProps,
    Sample.useTextSize (VObj Sample.responsive_sizes) (VStr "paragraph")
    = Normal (VObj styleProps)
    ∧ Responsive.at_breakpoint styleProps "smallViewport"
      = {[ "fontSize" := VNum 12; "lineHeight" := VNum 17 ]}
    ∧ Responsive.at_breakpoint styleProps "largeViewport"
      = {[ "fontSize" := VNum 16; "lineHeight" := VNum 23 ]}.
Proof.
  destruct (responsive_size_resolves
              Sample.theme Sample.textSizesByVariant
              {[ "xsmall" := VObj {[ "fontSize" := VNum 11; "lineHeight" := VNum 15 ]};
                 "small" := VObj {[ "fontSize" := VNum 12; "lineHeight" := VNum 17 ]};
                 "default" := VObj {[ "fontSize" := VNum 14; "lineHeight" := VNum 20 ]};
                 "large" := VObj {[ "fontSize" := VNum 16; "lineHeight" := VNum 23 ]} ]}
              Sample.responsive_sizes "paragraph")
    as (_ & styleProps & Hres & Hat).
  - reflexivity.
  - reflexivity.
  - intros breakpoint v Hv. unfold Sample.responsive_sizes in Hv.
    apply lookup_insert_Some in Hv as [[_ <-]|[_ Hv]].
    + eexists _, _. split; reflexivity.
    + apply lookup_singleton_Some in Hv as [_ <-].
      eexists _, _. split; reflexivity.
  - exists styleProps. split; [exact Hres|]. split.
    + eapply Hat; reflexivity.
    + eapply Hat; reflexivity.
Defined.

Lemma invariant_failures_witness :
  Sample.Text ∅ VNull = Throw (InvariantViolation "as")
  ∧ Sample.Text {[ "as" := VStr "p" ]} VNull
    = Throw (InvariantViolation "size")
  ∧ Sample.Text {[ "as" := VStr "p"; "size" := VStr "small" ]} VNull
    = Throw (InvariantViolation "variant")
  ∧ is_normal (Sample.Text Sample.props_fontSize VNull)
  ∧ is_normal (Sample.ForwardedRefText ∅ VNull).
Proof.
  split_and!.
  - destruct (invariant_failures
                Sample.theme Sample.useStyledSystem Sample.cx
                Responsive.getStylePropsForResponsiveProp ∅ VNull)
      as (Has & _).
    apply Has. reflexivity.
  - destruct (invariant_failures
                Sample.theme Sample.useStyledSystem Sample.cx
                Responsive.getStylePropsForResponsiveProp
                {[ "as" := VStr "p" ]} VNull)
      as (_ & Hsize & _).
    apply Hsize; [defined | reflexivity].
  - destruct (invariant_failures
                Sample.theme Sample.useStyledSystem Sample.cx
                Responsive.getStylePropsForResponsiveProp
                {[ "as" := VStr "p"; "size" := VStr "small" ]} VNull)
      as (_ & _ & Hvariant & _).
    apply Hvariant; [defined | defined | reflexivity].
  - destruct (invariant_failures
                Sample.theme Sample.useStyledSystem Sample.cx
                Responsive.getStylePropsForResponsiveProp
                Sample.props_fontSize VNull)
      as (_ & _ & _ & Hdefined & _).
    unfold Sample.Text. rewrite Hdefined by defined.
    eexists. vm_compute. reflexivity.
  - destruct (invariant_failures
                Sample.theme Sample.useStyledSystem Sample.cx
                Responsive.getStylePropsForResponsiveProp ∅ VNull)
      as (_ & _ & _ & _ & Hpublic).
    cbv zeta in Hpublic. destruct Hpublic as (_ & _ & _ & Hpublic).
    unfold Sample.ForwardedRefText. rewrite Hpublic.
    eexists. vm_compute. reflexivity.
Defined.

Lemma defaults_applied_witness :
  ∃ el, Sample.ForwardedRefText {[ "children" := VStr "hello" ]} VNull
        = Normal el
        ∧ el_type el = VStr "p"
        ∧ el_attributes el !! "className" = Some (VStr "css-1")
        ∧ el_children el = VStr "hello".
Proof.
  pose proof (defaults_applied
                Sample.theme Sample.useStyledSystem Sample.cx
                Responsive.getStylePropsForResponsiveProp
                {[ "children" := VStr "hello" ]} VNull) as H.
  cbv zeta in H. destruct H as (_ & _ & _ & _ & Hall).
  destruct (Hall ltac:(reflexivity) ltac:(reflexivity) ltac:(reflexivity)
                 Sample.textSizesByVariant ltac:(reflexivity)
                 ltac:(vm_compute; reflexivity))
    as (row & entry & Hrow & Hentry & Hrender & Htype).
  eexists. split; [exact Hrender|]. split; [exact Htype|].
  injection Hrow as <-. injection Hentry as <-.
  split; reflexivity.
Defined.

Lemma children_forwarded_witness :
  ∃ el, Sample.Text Sample.props_fontSize VNull = Normal el
        ∧ el_children el = VStr "hello".
Proof.
  destruct (children_forwarded
              Sample.theme Sample.useStyledSystem Sample.cx
              Responsive.getStylePropsForResponsiveProp
              Sample.props_fontSize VNull)
    as (_ & _ & Hrenders).
  destruct (Hrenders (VObj {[ "fontSize" := VNum 14 ]})
                     ltac:(defined) ltac:(defined) ltac:(defined)
                     ltac:(vm_compute; reflexivity))
    as (el & Hrender & Hchildren).
  exists el. split; [exact Hrender|]. rewrite Hchildren. reflexivity.
Defined.


(** * Further properties of the render function *)

Lemma get_insert_eq (o : gmap string value) (k : string) (v : value) :
  JS.get (<[k:=v]> o) k = v.
Proof. unfold JS.get. by rewrite lookup_insert_eq. Qed.

Lemma get_insert_ne (o : gmap string value) (k j : string) (v : value) :
  k ≠ j → JS.get (<[k:=v]> o) j = JS.get o j.
Proof. intros Hne. unfold JS.get. by rewrite lookup_insert_ne. Qed.

Lemma styleProps_insert_named (props : gmap string value) (k : string)
      (v : value) :
  k ∈ named_props → styleProps_of (<[k:=v]> props) = styleProps_of props.
Proof.
  intros Hk. apply map_eq. intros j. unfold styleProps_of.
  rewrite !lookup_rest. case_bool_decide as Hj; [done|].
  apply lookup_insert_ne. by intros ->.
Qed.

Lemma dom_assign (entries : list (string * value)) (target : gmap string value) :
  dom (JS.assign target entries) = list_to_set entries.*1 ∪ dom target.
Proof.
  unfold JS.assign. revert target.
  induction entries as [|[n x] entries IH]; intros target; cbn [foldl fmap list_fmap].
  - cbn. by rewrite (left_id_L ∅ (∪)).
  - rewrite IH. cbn [fst snd list_to_set]. rewrite dom_insert_L.
    rewrite !(assoc_L (∪)). f_equal. apply (comm_L (∪)).
Qed.

Lemma dom_builtin_attributes (cx : value → value → value) (ref c : value)
      (props : gmap string value) :
  dom (builtin_attributes cx ref props c) = list_to_set builtin_attribute_names.
Proof.
  unfold builtin_attributes. rewrite dom_assign, dom_empty_L.
  by rewrite (right_id_L ∅ (∪)).
Qed.

(** Apart from [className], the attributes the render function writes do
    not depend on the class name it computed. *)
Lemma lookup_builtin_not_className (cx cx' : value → value → value)
      (ref c c' : value) (props : gmap string value) (k : string) :
  k ≠ "className" →
  builtin_attributes cx ref props c !! k
  = builtin_attributes cx' ref props c' !! k.
Proof.
  intros Hk. unfold builtin_attributes, JS.assign. cbn [foldl fst snd].
  rewrite !lookup_insert.
  repeat (case_decide; [congruence|]). done.
Qed.

(** The attributes read no prop but the fourteen they forward. *)
Lemma host_attributes_insert_other (cx : value → value → value) (ref c : value)
      (props : gmap string value) (k : string) (v : value) :
  k ∉ "dataAttributes" :: builtin_attribute_names →
  host_attributes cx ref (<[k:=v]> props) c = host_attributes cx ref props c.
Proof.
  intros Hk. unfold host_attributes, builtin_attributes.
  assert (∀ j, j ∈ "dataAttributes" :: builtin_attribute_names →
               JS.get (<[k:=v]> props) j = JS.get props j) as Hget.
  { intros j Hj. apply get_insert_ne. by intros ->. }
  by rewrite !Hget by decide_elem.
Qed.

Section RenderFurther.

Variable useTheme : value.
Variable useStyledSystem : value → value.
Variable cx : value → value → value.
Variable getStylePropsForResponsiveProp : value → value → outcome value.

Local Abbreviation resolve_size := (useTextSize useTheme getStylePropsForResponsiveProp).
Local Abbreviation render :=
  (Text useTheme useStyledSystem cx getStylePropsForResponsiveProp).
Local Abbreviation render_public :=
  (ForwardedRefText useTheme useStyledSystem cx getStylePropsForResponsiveProp).
Local Abbreviation element_for := (rendered useStyledSystem cx).

(** X1. The rendered element has exactly the thirteen attributes the render
    function writes and the entries of [dataAttributes]: no other prop is an
    attribute of the host element, in particular none of the caller's open
    style props. *)
Theorem host_attribute_names
        (props : gmap string value) (ref stylePropsForTextSize : value) :
  JS.get props "as" ≠ VUndefined →
  JS.get props "size" ≠ VUndefined →
  JS.get props "variant" ≠ VUndefined →
  resolve_size (JS.get props "size") (JS.get props "variant")
  = Normal stylePropsForTextSize →
  ∃ el,
    render props ref = Normal el
    ∧ dom (el_attributes el)
      = list_to_set builtin_attribute_names ∪ dom (dataAttributes_of props)
    ∧ (∀ k, k ∉ builtin_attribute_names →
            dataAttributes_of props !! k = None →
            el_attributes el !! k = None).
Proof.
  intros Ha Hs Hv Hsty.
  eexists. split; [by apply Text_renders|]. unfold rendered. cbn [el_attributes].
  assert (dom (host_attributes
                 cx ref props
                 (useStyledSystem
                    (VObj (mergedStyleProps stylePropsForTextSize
                                            (styleProps_of props)))))
          = list_to_set builtin_attribute_names ∪ dom (dataAttributes_of props))
    as Hdom.
  { unfold host_attributes, JS.spread. rewrite dom_union_L.
    rewrite dom_builtin_attributes. apply (comm_L (∪)). }
  split; [exact Hdom|].
  intros k Hk Hda. apply not_elem_of_dom. rewrite Hdom.
  apply not_elem_of_union. split.
  - by rewrite elem_of_list_to_set.
  - by apply not_elem_of_dom.
Qed.

(** X2. The props the render function forwards ([children], [id], [role],
    [dataAttributes], [className], [style] and the aria props) take no part
    in the computed style: whatever value one of them is given, the style is
    resolved from the same size and variant and the styling hook receives
    the same object. *)
Theorem forwarded_props_not_styled
        (props : gmap string value) (ref : value) (k : string) (v : value) :
  k ∈ named_props →
  k ∉ ["as"; "size"; "variant"] →
  JS.get props "as" ≠ VUndefined →
  JS.get props "size" ≠ VUndefined →
  JS.get props "variant" ≠ VUndefined →
  render (<[k:=v]> props) ref
  = do stylePropsForTextSize <-
       resolve_size (JS.get props "size") (JS.get props "variant");
    Normal
      {| el_type := JS.get props "as";
         el_attributes :=
           host_attributes
             cx ref (<[k:=v]> props)
             (useStyledSystem
                (VObj (mergedStyleProps stylePropsForTextSize
                                        (styleProps_of props))));
         el_children := JS.get (<[k:=v]> props) "children" |}.
Proof.
  intros Hnamed Hk Ha Hs Hv.
  assert (k ≠ "as" ∧ k ≠ "size" ∧ k ≠ "variant") as (Hka & Hks & Hkv).
  { split_and!; intros ->; apply Hk; decide_elem. }
  rewrite Text_defined by (rewrite get_insert_ne; done).
  unfold rendered. rewrite styleProps_insert_named by done.
  by rewrite !(get_insert_ne props k _ v) by done.
Qed.

(** X3. [id], [role] and [style] are forwarded to the element as the caller
    passed them, and [ref] is the ref the component was given, for each of
    these names [dataAttributes] has no entry for; [style] in particular is
    the caller's object itself, not merged with the computed style. *)
Theorem id_role_style_ref_forwarded
        (props : gmap string value) (ref stylePropsForTextSize : value) :
  JS.get props "as" ≠ VUndefined →
  JS.get props "size" ≠ VUndefined →
  JS.get props "variant" ≠ VUndefined →
  resolve_size (JS.get props "size") (JS.get props "variant")
  = Normal stylePropsForTextSize →
  ∃ el,
    render props ref = Normal el
    ∧ (∀ name, name ∈ ["id"; "role"; "style"] →
               dataAttributes_of props !! name = None →
               el_attributes el !! name = Some (JS.get props name))
    ∧ (dataAttributes_of props !! "ref" = None →
       el_attributes el !! "ref" = Some ref).
Proof.
  intros Ha Hs Hv Hsty.
  eexists. split; [by apply Text_renders|]. unfold rendered. cbn [el_attributes].
  split.
  - intros name Hname Hda. rewrite lookup_host_attributes_builtin by done.
    repeat (apply elem_of_cons in Hname as [->|Hname]; [reflexivity|]).
    by apply elem_of_nil in Hname.
  - intros Hda. by rewrite lookup_host_attributes_builtin.
Qed.

(** X5. The render function does not check [as] against the list of tags:
    any defined value, a tag outside the list or not a string at all, is the
    type of the returned element, and the rest of the render is what it is
    for any other tag. *)
Theorem as_rendered_as_given
        (props : gmap string value) (ref component : value) :
  component ≠ VUndefined →
  JS.get props "size" ≠ VUndefined →
  JS.get props "variant" ≠ VUndefined →
  render (<["as":=component]> props) ref
  = do stylePropsForTextSize <-
       resolve_size (JS.get props "size") (JS.get props "variant");
    Normal
      {| el_type := component;
         el_attributes :=
           host_attributes
             cx ref props
             (useStyledSystem
                (VObj (mergedStyleProps stylePropsForTextSize
                                        (styleProps_of props))));
         el_children := JS.get props "children" |}.
Proof.
  intros Hc Hs Hv.
  rewrite Text_defined;
    [|by rewrite get_insert_eq|by rewrite get_insert_ne..].
  rewrite !(get_insert_ne props "as" _ component) by done.
  destruct (resolve_size (JS.get props "size") (JS.get props "variant"))
    as [sty| |]; [|done..].
  rewrite !obind_normal. unfold rendered. rewrite get_insert_eq.
  rewrite styleProps_insert_named by decide_elem.
  rewrite host_attributes_insert_other by decide_elem.
  by rewrite get_insert_ne.
Qed.

Lemma valid_or_default (v : value) (d : string) (l : list string) :
  v = VUndefined ∨ (∃ s, s ∈ l ∧ v = VStr s) →
  d ∈ l →
  ∃ s, s ∈ l ∧ JS.or_default v (VStr d) = VStr s.
Proof.
  intros [->|(s & Hs & ->)] Hd.
  - by exists d.
  - by exists s.
Qed.

(** X8. Over a theme whose table covers the variants and sizes, the exported
    component never fails on props whose [size] is omitted or one of
    [TextSizes] and whose [variant] is omitted or one of [TextVariants],
    whatever the other props are: it returns an element of the caller's [as]
    (a [p] when omitted) with the caller's children, styled by a table
    entry. *)
Theorem valid_props_render
        (table : gmap string value) (props : gmap string value) (ref : value) :
  theme_table useTheme = Some table →
  table_covers table = true →
  JS.get props "size" = VUndefined
  ∨ (∃ s, s ∈ TextSizes.values ∧ JS.get props "size" = VStr s) →
  JS.get props "variant" = VUndefined
  ∨ (∃ s, s ∈ TextVariants.values ∧ JS.get props "variant" = VStr s) →
  ∃ variant size row entry el,
    JS.or_default (JS.get props "variant") (VStr "default") = VStr variant
    ∧ JS.or_default (JS.get props "size") (VStr "default") = VStr size
    ∧ table !! variant = Some (VObj row)
    ∧ row !! size = Some entry
    ∧ render_public props ref = Normal el
    ∧ el_type el = JS.or_default (JS.get props "as") (VStr "p")
    ∧ el_children el = JS.get props "children"
    ∧ el_attributes el
      = host_attributes
          cx ref props
          (useStyledSystem (VObj (mergedStyleProps entry (styleProps_of props)))).
Proof.
  intros Htheme Hcov Hsize Hvariant.
  destruct (valid_or_default _ "default" _ Hsize) as (size & Hs & Hsize');
    [decide_elem|].
  destruct (valid_or_default _ "default" _ Hvariant) as (variant & Hv & Hvariant');
    [decide_elem|].
  destruct (table_covers_row table variant Hcov Hv) as (row & Hrow & Hsizes).
  destruct (Hsizes size Hs) as [entry Hentry].
  pose proof (useTextSize_row useTheme getStylePropsForResponsiveProp
                              _ _ _ size Htheme Hrow) as Hres.
  rewrite (get_own _ _ _ Hentry) in Hres.
  exists variant, size, row, entry. eexists.
  split_and!; [done..| | | |].
  - rewrite ForwardedRefText_defined, resolved_size, resolved_variant.
    change (VStr TextSizes.DEFAULT) with (VStr "default").
    change (VStr TextVariants.DEFAULT) with (VStr "default").
    rewrite Hsize', Hvariant', Hres, obind_normal.
    by rewrite rendered_resolved.
  - done.
  - done.
  - done.
Qed.

(** X9. When the theme has no [textSizesByVariant] (the theme is
    [undefined], [null], or an object without that property), every style
    resolution throws a TypeError, and so does every render of the exported
    component, whatever the props. *)
Theorem theme_without_table (props : gmap string value) (ref : value) :
  useTheme = VUndefined ∨ useTheme = VNull
  ∨ (∃ t, useTheme = VObj t ∧ t !! "textSizesByVariant" = None) →
  (∀ size variant, resolve_size size variant = Throw TypeError)
  ∧ render_public props ref = Throw TypeError.
Proof.
  intros Htheme.
  assert (∀ size variant, resolve_size size variant = Throw TypeError) as Hres.
  { intros size variant. unfold useTextSize.
    destruct Htheme as [->| [->| (t & -> & Ht)]]; [done..|].
    rewrite get_prop_obj, get_missing by (done || decide_elem).
    reflexivity. }
  split; [done|].
  by rewrite ForwardedRefText_defined, Hres.
Qed.

(** X10. A defined size that is not a string ([null], a number, an object)
    is handed as it is, with the variant's row, to the responsive expansion
    routine, and the render ends as that call ends: with the element styled
    by what the routine returns, or with the error the routine throws. *)
Theorem nonstring_size_delegated
        (table row : gmap string value) (variant : string)
        (props : gmap string value) (ref : value) :
  theme_table useTheme = Some table →
  table !! variant = Some (VObj row) →
  JS.get props "as" ≠ VUndefined →
  JS.get props "variant" = VStr variant →
  JS.get props "size" ≠ VUndefined →
  JS.is_string (JS.get props "size") = false →
  (∀ stylePropsForTextSize,
     getStylePropsForResponsiveProp (JS.get props "size") (VObj row)
     = Normal stylePropsForTextSize →
     render props ref = Normal (element_for props ref stylePropsForTextSize))
  ∧ (∀ e,
       getStylePropsForResponsiveProp (JS.get props "size") (VObj row)
       = Throw e →
       render props ref = Throw e).
Proof.
  intros Htheme Hrow Ha Hv Hs Hstr.
  assert (render props ref
          = do sty <- getStylePropsForResponsiveProp (JS.get props "size")
                                                     (VObj row);
            Normal (element_for props ref sty)) as Hrender.
  { rewrite Text_defined by (rewrite ?Hv; done).
    by rewrite Hv, (useTextSize_delegates _ _ _ _ _ _ Htheme Hrow Hstr). }
  split.
  - intros sty Hsty. by rewrite Hrender, Hsty.
  - intros e He. by rewrite Hrender, He.
Qed.

(** X11. A [dataAttributes] that is [undefined] or [null] adds nothing and
    breaks nothing: the element has the attributes the render function
    writes itself, with their values. *)
Theorem dataAttributes_absent
        (props : gmap string value) (ref stylePropsForTextSize : value) :
  JS.get props "as" ≠ VUndefined →
  JS.get props "size" ≠ VUndefined →
  JS.get props "variant" ≠ VUndefined →
  resolve_size (JS.get props "size") (JS.get props "variant")
  = Normal stylePropsForTextSize →
  JS.get props "dataAttributes" = VUndefined
  ∨ JS.get props "dataAttributes" = VNull →
  ∃ el,
    render props ref = Normal el
    ∧ el_attributes el
      = builtin_attributes
          cx ref props
          (useStyledSystem
             (VObj (mergedStyleProps stylePropsForTextSize
                                     (styleProps_of props)))).
Proof.
  intros Ha Hs Hv Hsty Hda.
  eexists. split; [by apply Text_renders|]. unfold rendered. cbn [el_attributes].
  unfold host_attributes, JS.spread.
  destruct Hda as [-> | ->]; cbn [JS.or_default JS.own_enumerable];
    by rewrite (left_id_L ∅ (∪)).
Qed.

End RenderFurther.

(** X4. The theme, the styling hook, [cx] and the expansion routine decide
    nothing of the element but its class: two renders of the same props that
    both return an element, under any two such configurations, return the
    same type, the same children and the same attributes apart from
    [className]. *)
Theorem only_className_is_styled
        (useTheme useTheme' : value)
        (useStyledSystem useStyledSystem' : value → value)
        (cx cx' : value → value → value)
        (expansion expansion' : value → value → outcome value)
        (props : gmap string value) (ref : value) (el el' : element) :
  Text useTheme useStyledSystem cx expansion props ref = Normal el →
  Text useTheme' useStyledSystem' cx' expansion' props ref = Normal el' →
  el_type el = el_type el'
  ∧ el_children el = el_children el'
  ∧ ∀ k, k ≠ "className" → el_attributes el !! k = el_attributes el' !! k.
Proof.
  intros (sty & _ & ->)%Text_normal_inv (sty' & _ & ->)%Text_normal_inv.
  unfold rendered. cbn [el_type el_children el_attributes].
  split_and!; [done..|]. intros k Hk.
  destruct (dataAttributes_of props !! k) as [v|] eqn:Hda.
  - by rewrite !(lookup_host_attributes_data _ _ _ _ _ _ Hda).
  - rewrite !lookup_host_attributes_builtin by done.
    by apply lookup_builtin_not_className.
Qed.

(** ** Default props, further *)

Lemma resolve_lookup_default (defaults : list (string * value))
      (props : gmap string value) (k : string) (d : value) :
  NoDup defaults.*1 →
  (k, d) ∈ defaults →
  resolve_default_props defaults props !! k
  = if JS.is_defined (JS.get props k) then props !! k else Some d.
Proof.
  unfold resolve_default_props. revert props.
  induction defaults as [|[n x] defaults IH]; intros props Hnd Hin.
  - by apply elem_of_nil in Hin.
  - cbn in Hnd. apply NoDup_cons in Hnd as [Hn Hnd].
    cbn [foldl fst snd]. apply elem_of_cons in Hin as [[= -> ->]|Hin].
    + pose proof (resolve_lookup_other defaults) as Hother.
      unfold resolve_default_props in Hother. rewrite Hother by done.
      destruct (JS.is_defined (JS.get props n)); [done|].
      apply lookup_insert_eq.
    + assert (n ≠ k) as Hne.
      { intros ->. apply Hn. apply list_elem_of_fmap. by exists (k, d). }
      rewrite IH by done. rewrite resolve_step_other by done.
      destruct (JS.is_defined (JS.get props n)); [done|].
      by rewrite lookup_insert_ne.
Qed.

Lemma defaultProps_keys_NoDup : NoDup defaultProps.*1.
Proof. apply (bool_decide_unpack _). vm_compute. exact I. Qed.

Lemma defaultProps_defined (k : string) (d : value) :
  (k, d) ∈ defaultProps → d ≠ VUndefined ∧ JS.inherited k = VUndefined.
Proof.
  unfold defaultProps. intros Hin.
  repeat (apply elem_of_cons in Hin as [[= -> ->]|Hin]; [done|]).
  by apply elem_of_nil in Hin.
Qed.

Lemma resolved_get_default (props : gmap string value) (k : string) (d : value) :
  (k, d) ∈ defaultProps →
  JS.get (resolve_default_props defaultProps props) k
  = JS.or_default (JS.get props k) d.
Proof.
  intros Hin. destruct (defaultProps_defined _ _ Hin) as [Hd Hk].
  unfold JS.get at 1.
  rewrite (resolve_lookup_default _ _ _ _ defaultProps_keys_NoDup Hin).
  destruct (JS.is_defined (JS.get props k)) eqn:Hdef.
  - unfold JS.get in *. destruct (props !! k) as [v|].
    + destruct v; simpl in *; congruence.
    + rewrite Hk in Hdef. done.
  - apply is_defined_false in Hdef. by rewrite Hdef.
Qed.

(** X6. Resolving the defaults never changes a prop the caller defined
    ([null] included), gives each of [as], [size], [variant] that reads as
    [undefined] (left out, or passed as [undefined]) its default, and is
    idempotent. *)
Theorem defaults_respect_caller (props : gmap string value) :
  (∀ k, JS.get props k ≠ VUndefined →
        JS.get (resolve_default_props defaultProps props) k = JS.get props k)
  ∧ (∀ k d, (k, d) ∈ defaultProps → JS.get props k = VUndefined →
            JS.get (resolve_default_props defaultProps props) k = d)
  ∧ resolve_default_props defaultProps
      (resolve_default_props defaultProps props)
    = resolve_default_props defaultProps props.
Proof.
  split_and!.
  - intros k Hk. destruct (decide (k ∈ defaultProps.*1)) as [Hin|Hout].
    + apply list_elem_of_fmap in Hin as ([k' d] & -> & Hin). cbn [fst] in *.
      rewrite (resolved_get_default _ _ _ Hin).
      destruct (JS.get props k'); simpl; congruence.
    + by apply resolve_get_other.
  - intros k d Hin Hk. by rewrite (resolved_get_default _ _ _ Hin), Hk.
  - apply map_eq. intros k.
    destruct (decide (k ∈ defaultProps.*1)) as [Hin|Hout].
    + apply list_elem_of_fmap in Hin as ([k' d] & -> & Hin). cbn [fst] in *.
      rewrite (resolve_lookup_default _ (resolve_default_props _ _) _ _
                                      defaultProps_keys_NoDup Hin).
      rewrite (resolved_get_default _ _ _ Hin).
      destruct (defaultProps_defined _ _ Hin) as [Hd _].
      pose proof (or_default_defined (JS.get props k') d Hd) as Hdef.
      apply is_defined_true in Hdef. by rewrite Hdef.
    + by rewrite resolve_lookup_other.
Qed.

Lemma resolve_insert_default (props : gmap string value) (k : string) (d : value) :
  (k, d) ∈ defaultProps →
  JS.get props k = VUndefined →
  resolve_default_props defaultProps (<[k:=d]> props)
  = resolve_default_props defaultProps props.
Proof.
  intros Hin Hk. destruct (defaultProps_defined _ _ Hin) as [Hd _].
  apply map_eq. intros j.
  destruct (decide (j = k)) as [->|Hne].
  - rewrite !(resolve_lookup_default _ _ _ _ defaultProps_keys_NoDup Hin).
    rewrite get_insert_eq, Hk, lookup_insert_eq.
    apply is_defined_true in Hd. by rewrite Hd.
  - destruct (decide (j ∈ defaultProps.*1)) as [Hj|Hj].
    + apply list_elem_of_fmap in Hj as ([j' dj] & -> & Hj). cbn [fst] in *.
      rewrite !(resolve_lookup_default _ _ _ _ defaultProps_keys_NoDup Hj).
      by rewrite get_insert_ne, lookup_insert_ne.
    + rewrite !resolve_lookup_other by done. by rewrite lookup_insert_ne.
Qed.

(** X7. Passing a default explicitly is the same as leaving the prop out:
    for each of [as='p'], [size='default'], [variant='default'], the
    exported component renders props in which that prop reads as
    [undefined] exactly as it renders them with the default written in. *)
Theorem explicit_default_is_omitted
        (useTheme : value) (useStyledSystem : value → value)
        (cx : value → value → value)
        (expansion : value → value → outcome value)
        (props : gmap string value) (ref : value) (k : string) (d : value) :
  (k, d) ∈ defaultProps →
  JS.get props k = VUndefined →
  ForwardedRefText useTheme useStyledSystem cx expansion (<[k:=d]> props) ref
  = ForwardedRefText useTheme useStyledSystem cx expansion props ref.
Proof.
  intros Hin Hk. unfold ForwardedRefText.
  by rewrite (resolve_insert_default _ _ _ Hin Hk).
Qed.

(** ** The further properties at work *)

Lemma host_attribute_names_witness :
  ∃ el, Sample.Text Sample.props_fontSize VNull = Normal el
        ∧ Sample.props_fontSize !! "fontSize" = Some (VNum 20)
        ∧ el_attributes el !! "fontSize" = None
        ∧ dom (el_attributes el) = list_to_set builtin_attribute_names.
Proof.
  destruct (host_attribute_names
              Sample.theme Sample.useStyledSystem Sample.cx
              Responsive.getStylePropsForResponsiveProp
              Sample.props_fontSize VNull (VObj {[ "fontSize" := VNum 14 ]})
              ltac:(defined) ltac:(defined) ltac:(defined)
              ltac:(vm_compute; reflexivity))
    as (el & Hrender & Hdom & Hnone).
  exists el. split; [exact Hrender|]. split; [reflexivity|]. split.
  - apply Hnone; [decide_elem | reflexivity].
  - rewrite Hdom. change (dom (dataAttributes_of Sample.props_fontSize))
      with (∅ : gset string).
    apply (right_id_L ∅ (∪)).
Defined.

Lemma forwarded_props_not_styled_witness :
  ∃ el,
    Sample.Text (<["style" := VObj {[ "fontSize" := VNum 99 ]}]>
                   Sample.props_fontSize) VNull
    = Normal el
    ∧ el_attributes el !! "className" = Some (VStr "css-1")
    ∧ el_attributes el !! "style" = Some (VObj {[ "fontSize" := VNum 99 ]}).
Proof.
  unfold Sample.Text.
  rewrite (forwarded_props_not_styled
             Sample.theme Sample.useStyledSystem Sample.cx
             Responsive.getStylePropsForResponsiveProp
             Sample.props_fontSize VNull "style"
             (VObj {[ "fontSize" := VNum 99 ]})
             ltac:(decide_elem) ltac:(decide_elem)
             ltac:(defined) ltac:(defined) ltac:(defined)).
  eexists. split; [vm_compute; reflexivity|]. split; reflexivity.
Defined.

Lemma id_role_style_ref_forwarded_witness :
  ∃ el, Sample.Text Sample.props_data (VNative "ref") = Normal el
        ∧ el_attributes el !! "id" = Some VUndefined
        ∧ el_attributes el !! "style" = Some VUndefined
        ∧ el_attributes el !! "ref" = Some (VNative "ref").
Proof.
  destruct (id_role_style_ref_forwarded
              Sample.theme Sample.useStyledSystem Sample.cx
              Responsive.getStylePropsForResponsiveProp
              Sample.props_data (VNative "ref")
              (VObj {[ "fontSize" := VNum 12 ]})
              ltac:(defined) ltac:(defined) ltac:(defined)
              ltac:(vm_compute; reflexivity))
    as (el & Hrender & Hnamed & Href).
  exists el. split; [exact Hrender|]. split; [|split].
  - rewrite (Hnamed "id") by (decide_elem || reflexivity). reflexivity.
  - rewrite (Hnamed "style") by (decide_elem || reflexivity). reflexivity.
  - apply Href. reflexivity.
Defined.

Lemma as_rendered_as_given_witness :
  ∃ el, Sample.Text (<["as" := VStr "div"]> Sample.props_fontSize) VNull
        = Normal el
        ∧ el_type el = VStr "div"
        ∧ el_children el = VStr "hello".
Proof.
  unfold Sample.Text.
  rewrite (as_rendered_as_given
             Sample.theme Sample.useStyledSystem Sample.cx
             Responsive.getStylePropsForResponsiveProp
             Sample.props_fontSize VNull (VStr "div")
             ltac:(discriminate) ltac:(defined) ltac:(defined)).
  eexists. split; [vm_compute; reflexivity|]. split; reflexivity.
Defined.

Lemma only_className_is_styled_witness :
  ∃ el el',
    Sample.Text Sample.props_data VNull = Normal el
    ∧ Text (VObj {[ "textSizesByVariant" :=
                      VObj {[ "default" := VObj {[ "small" := VNull ]} ]} ]})
           (λ _, VStr "other") (λ a _, a) (λ _ _, Unmodelled)
           Sample.props_data VNull
      = Normal el'
    ∧ el_type el = el_type el'
    ∧ el_attributes el !! "role" = el_attributes el' !! "role"
    ∧ el_attributes el !! "className" = Some (VStr "css-1 mine")
    ∧ el_attributes el' !! "className" = Some (VStr "other").
Proof.
  eexists _, _. split; [vm_compute; reflexivity|].
  split; [vm_compute; reflexivity|].
  edestruct (only_className_is_styled
               Sample.theme
               (VObj {[ "textSizesByVariant" :=
                          VObj {[ "default" := VObj {[ "small" := VNull ]} ]} ]})
               Sample.useStyledSystem (λ _, VStr "other")
               Sample.cx (λ a _, a)
               Responsive.getStylePropsForResponsiveProp (λ _ _, Unmodelled)
               Sample.props_data VNull)
    as (Htype & _ & Hattrs);
    [vm_compute; reflexivity | vm_compute; reflexivity |].
  split; [exact Htype|]. split; [apply Hattrs; discriminate|].
  split; reflexivity.
Defined.

Lemma defaults_respect_caller_witness :
  JS.get (resolve_default_props defaultProps {[ "as" := VNull ]}) "as" = VNull
  ∧ JS.get (resolve_default_props defaultProps
              {[ "as" := VNull; "size" := VUndefined ]}) "size"
    = VStr "default".
Proof.
  split.
  - destruct (defaults_respect_caller {[ "as" := VNull ]}) as (Hkeep & _).
    rewrite Hkeep by defined. reflexivity.
  - destruct (defaults_respect_caller
                {[ "as" := VNull; "size" := VUndefined ]}) as (_ & Hfill & _).
    apply Hfill; [right; left | reflexivity].
Defined.

Lemma explicit_default_is_omitted_witness :
  Sample.ForwardedRefText {[ "size" := VStr "default"; "children" := VStr "hello" ]}
                          VNull
  = Sample.ForwardedRefText {[ "children" := VStr "hello" ]} VNull.
Proof.
  apply (explicit_default_is_omitted
           Sample.theme Sample.useStyledSystem Sample.cx
           Responsive.getStylePropsForResponsiveProp
           {[ "children" := VStr "hello" ]} VNull "size" (VStr "default")).
  - right. left.
  - reflexivity.
Defined.

Lemma valid_props_render_witness :
  ∃ el,
    Sample.ForwardedRefText
      {[ "variant" := VStr "paragraph"; "tabIndex" := VNum 0;
         "dataAttributes" := VStr "ab" ]} VNull
    = Normal el
    ∧ el_type el = VStr "p"
    ∧ el_children el = VUndefined.
Proof.
  destruct (valid_props_render
              Sample.theme Sample.useStyledSystem Sample.cx
              Responsive.getStylePropsForResponsiveProp
              Sample.textSizesByVariant
              {[ "variant" := VStr "paragraph"; "tabIndex" := VNum 0;
                 "dataAttributes" := VStr "ab" ]} VNull
              ltac:(reflexivity) ltac:(vm_compute; reflexivity))
    as (variant & size & row & entry & el & _ & _ & _ & _
        & Hrender & Htype & Hchildren & _).
  - left. reflexivity.
  - right. exists "paragraph". split; [decide_elem | reflexivity].
  - exists el. split; [exact Hrender|]. split.
    + rewrite Htype. reflexivity.
    + rewrite Hchildren. reflexivity.
Defined.

Lemma theme_without_table_witness :
  ForwardedRefText (VObj ∅) Sample.useStyledSystem Sample.cx
                   Responsive.getStylePropsForResponsiveProp
                   Sample.props_fontSize VNull
  = Throw TypeError.
Proof.
  apply (theme_without_table
           (VObj ∅) Sample.useStyledSystem Sample.cx
           Responsive.getStylePropsForResponsiveProp
           Sample.props_fontSize VNull).
  right. right. exists ∅. split; reflexivity.
Defined.

Lemma nonstring_size_delegated_witness :
  Text Sample.theme Sample.useStyledSystem Sample.cx
       (λ _ _, Throw TypeError)
       {[ "as" := VStr "p"; "size" := VNull; "variant" := VStr "default" ]}
       VNull
  = Throw TypeError.
Proof.
  edestruct (nonstring_size_delegated
               Sample.theme Sample.useStyledSystem Sample.cx
               (λ _ _, Throw TypeError)
               Sample.textSizesByVariant _ "default"
               {[ "as" := VStr "p"; "size" := VNull;
                  "variant" := VStr "default" ]} VNull
               ltac:(reflexivity) ltac:(reflexivity) ltac:(defined)
               ltac:(reflexivity) ltac:(defined) ltac:(reflexivity))
    as (_ & Hthrows).
  apply Hthrows. reflexivity.
Defined.

Lemma dataAttributes_absent_witness :
  ∃ el, Sample.Text (<["dataAttributes" := VNull]> Sample.props_fontSize) VNull
        = Normal el
        ∧ dom (el_attributes el) = list_to_set builtin_attribute_names.
Proof.
  destruct (dataAttributes_absent
              Sample.theme Sample.useStyledSystem Sample.cx
              Responsive.getStylePropsForResponsiveProp
              (<["dataAttributes" := VNull]> Sample.props_fontSize) VNull
              (VObj {[ "fontSize" := VNum 14 ]}))
    as (el & Hrender & Hattrs);
    [defined | defined | defined | vm_compute; reflexivity
     | right; reflexivity |].
  exists el. split; [exact Hrender|].
  rewrite Hattrs. apply dom_builtin_attributes.
Defined.
